(** * MuToXGuard: the text-to-verdict pipeline of [app_simple.py]

    A shallow embedding of the Streamlit script: the language detector, the
    toxicity scorer, the artifact loader and one run of the page script, with
    the properties of the specification proved about them. *)

From Stdlib Require Import Floats ZArith Bool List String Ascii NArith Lia Sorted.
Import ListNotations.

(** A decimal literal such as [0.8] denotes the nearest binary64 number, in
    Rocq as in Python. *)
Set Warnings "-inexact-float".

(** * Python values: exceptions, results, strings *)

Module Py.

(** The exceptions the script can meet.  [Exception] stands for any instance
    of a subclass of Python's [Exception]; Streamlit's script-control
    exceptions ([st.stop], [st.rerun]) and the other direct subclasses of
    [BaseException] are not caught by [except Exception]. *)
Inductive exn :=
| Exception (name : string)
| BaseException (name : string)
| StopException
| RerunException.

Definition is_Exception (e : exn) : bool :=
  match e with Exception _ => true | _ => false end.

Inductive result (A : Type) :=
| Ok (a : A)
| Raise (e : exn).
Arguments Ok {A} a.
Arguments Raise {A} e.

Definition bind {A B} (r : result A) (k : A -> result B) : result B :=
  match r with
  | Ok a => k a
  | Raise e => Raise e
  end.

(** [try: body / except: handler] (a bare [except] catches everything). *)
Definition try_except {A} (body : result A) (handler : result A) : result A :=
  match body with
  | Ok a => Ok a
  | Raise _ => handler
  end.

(** Indexing a sequence: [xs[i]] raises [IndexError] out of range. *)
Definition getitem {A} (xs : list A) (i : nat) : result A :=
  match nth_error xs i with
  | Some x => Ok x
  | None => Raise (Exception "IndexError")
  end.

(** ** Python [str]: a sequence of Unicode code points *)

Definition char := N.
Definition str := list char.

Definition of_string (s : string) : str :=
  map N_of_ascii (list_ascii_of_string s).

(** The part of the Unicode character database that [str.isupper] and
    [str.upper] consult outside ASCII. *)
Record Unicode := {
  uc_isupper : char -> bool;
  uc_upper : char -> list char
}.

(** A database in which no code point above ASCII is cased. *)
Definition caseless : Unicode :=
  {| uc_isupper := fun _ => false; uc_upper := fun c => [c] |}.

Definition in_range (lo hi c : N) : bool := (lo <=? c)%N && (c <=? hi)%N.

(** [Py_UNICODE_ISSPACE]: the characters [str.strip()] and [str.split()]
    treat as whitespace. *)
Definition isspace (c : char) : bool :=
  in_range 0x09 0x0D c || in_range 0x1C 0x1F c || (c =? 0x20)%N
  || (c =? 0x85)%N || (c =? 0xA0)%N || (c =? 0x1680)%N
  || in_range 0x2000 0x200A c || (c =? 0x2028)%N || (c =? 0x2029)%N
  || (c =? 0x202F)%N || (c =? 0x205F)%N || (c =? 0x3000)%N.

Section Cased.
Variable ucd : Unicode.

(** [c.isupper()] for a single character [c]. *)
Definition isupper (c : char) : bool :=
  if (c <? 128)%N then in_range 65 90 c else uc_isupper ucd c.

Definition upper_char (c : char) : list char :=
  if (c <? 128)%N then (if in_range 97 122 c then [(c - 32)%N] else [c])
  else uc_upper ucd c.

(** [s.upper()] *)
Definition upper (s : str) : str := flat_map upper_char s.

End Cased.

(** [s.lstrip()], [s.rstrip()] and [s.strip()] without arguments. *)
Fixpoint lstrip (s : str) : str :=
  match s with
  | c :: s' => if isspace c then lstrip s' else s
  | [] => []
  end.

Definition rstrip (s : str) : str := rev (lstrip (rev s)).

Definition strip (s : str) : str := rstrip (lstrip s).

(** Truth value of a [str]: non-empty. *)
Definition truthy (s : str) : bool :=
  match s with [] => false | _ :: _ => true end.

(** [s.split()] without arguments: the maximal runs of non-whitespace
    characters, scanning left to right.  [tok] holds the characters of the
    run being read, last first. *)
Fixpoint split_from (tok : str) (s : str) : list str :=
  match s with
  | [] => match tok with [] => [] | _ :: _ => [rev tok] end
  | c :: s' =>
      if isspace c
      then match tok with
           | [] => split_from [] s'
           | _ :: _ => rev tok :: split_from [] s'
           end
      else split_from (c :: tok) s'
  end.

Definition split (s : str) : list str := split_from [] s.

End Py.

(** * The application *)

Module App.
Import Py.
Local Open Scope string_scope.

Declare Scope result_scope.
Delimit Scope result_scope with result.
Notation "x <- e ;; k" := (bind e (fun x => k))
  (at level 61, e at next level, right associativity) : result_scope.

(** ** Data model *)

Inductive Severity := LOW | MEDIUM | HIGH.

Definition Severity_eqb (a b : Severity) : bool :=
  match a, b with
  | LOW, LOW | MEDIUM, MEDIUM | HIGH, HIGH => true
  | _, _ => false
  end.

(** The text of a severity level, as the source spells it. *)
Definition Severity_str (s : Severity) : string :=
  match s with LOW => "LOW" | MEDIUM => "MEDIUM" | HIGH => "HIGH" end.

(** The dictionary returned by [analyze_text]. *)
Record Verdict := {
  is_toxic : bool;
  confidence : float;
  severity : Severity
}.

(** A feature matrix or a probability matrix: rows of binary64 numbers. *)
Definition Matrix := list (list float).

(** An object returned by [joblib.load].  The script never checks what it
    loaded: it calls [transform] on one object and [predict_proba] and
    [predict] on the other, and reads [vocabulary_].  An object without the
    attribute raises there. *)
Record Artifact := {
  transform : list str -> result Matrix;
  predict_proba : Matrix -> result Matrix;
  predict : Matrix -> result (list Z);
  vocabulary_len : result nat
}.

(** An entry of the list returned by [langdetect.detect_langs]. *)
Record Language := {
  lang : str;
  prob : float
}.

(** ** Language detector (lines 93-101) *)

Section Detector.
Variable ucd : Unicode.
Variable detect_langs : str -> result (list Language).

Definition UNKNOWN : str := of_string "UNKNOWN".

(** The body of the [try]: [Some s] when it returns [s], [None] when control
    falls through to the statement after the [try]. *)
Definition detect_language_try (text : str) : result (option str) :=
  (langs <- detect_langs text ;;
   match langs with
   | _ :: _ => l <- getitem langs 0 ;; Ok (Some (upper ucd (lang l)))
   | [] => Ok None
   end)%result.

Definition detect_language (text : str) : result str :=
  (r <- try_except (detect_language_try text) (Ok None) ;;
   match r with
   | Some s => Ok s
   | None => Ok UNKNOWN
   end)%result.

End Detector.

(** ** Toxicity scorer (lines 103-116) *)

(** [bool(pred)] for the integer class label. *)
Definition bool_of_label (pred : Z) : bool := negb (pred =? 0)%Z.

Definition severity_of (prob : float) : Severity :=
  if (0.8 <? prob)%float then HIGH
  else if (0.5 <? prob)%float then MEDIUM
  else LOW.

Definition analyze_text (text : str) (model vectorizer : Artifact)
  : result Verdict :=
  (X <- transform vectorizer [text] ;;
   P <- predict_proba model X ;;
   row <- getitem P 0 ;;
   prob <- getitem row 1 ;;
   labels <- predict model X ;;
   pred <- getitem labels 0 ;;
   Ok {| is_toxic := bool_of_label pred;
         confidence := prob;
         severity := severity_of prob |})%result.

(** ** Text statistics (lines 223-235) *)

Definition word_count (text : str) : nat := List.length (split text).

Definition char_count (text : str) : nat := List.length text.

Definition has_caps (ucd : Unicode) (text : str) : bool :=
  existsb (isupper ucd) text.

(** The character class of the pattern [[!?@#$%^&*]]. *)
Definition special_chars : str := of_string "!?@#$%^&*".

Definition is_special (c : char) : bool := existsb (N.eqb c) special_chars.

(** [bool(re.search(r'[!?@#$%^&*]', text))] *)
Definition has_special (text : str) : bool := existsb is_special text.

(** ** The page script

    One run of the script is a computation over the state that outlives a run
    (the [st.cache_resource] cache and [st.session_state]); it produces the
    elements it renders and may end in an exception. *)

Record World := {
  cache : option (Artifact * Artifact);
  example : option str
}.

(** What the run reads from outside: the file system, the language
    detection library and the Unicode tables. *)
Record Env := {
  BASE_DIR : string;
  cwd : string;
  path_exists : string -> bool;
  iterdir : string -> result (list string);
  joblib_load : string -> result Artifact;
  detect_langs : str -> result (list Language);
  ucd : Unicode
}.

(** The values the input widgets return in this run. *)
Record Inputs := {
  text_input : str;
  analyze_btn : bool;
  clear_btn : bool;
  example1_btn : bool;
  example2_btn : bool;
  example3_btn : bool
}.

Inductive SidebarMsg :=
| BaseDirIs (dir : string)
| ModelPathExists (b : bool)
| LookingForModelAt (path : string).

Inductive ErrorMsg :=
| FailedToLoad (e : exn)
| CurrentDirectory (dir : string)
| ScriptDirectory (dir : string)
| FilesInBaseDir (files : option (list string)).

(** The main result box: its CSS class and message. *)
Inductive Box :=
| ToxicBox (sev : Severity)     (* "toxic":   TOXIC CONTENT DETECTED - sev RISK *)
| WarningBox (sev : Severity)   (* "warning": POTENTIALLY TOXIC - sev RISK *)
| SafeBox.                      (* "safe":    SAFE CONTENT *)

Inductive MetricValue :=
| MText (s : str)
| MPercent (pct : float)
| MSeverity (sev : Severity).

Inductive StatValue :=
| SCount (n : nat)
| SYesNo (b : bool).

Inductive Element :=
| PageConfig
| Css
| Title
| Subtitle
| SidebarWrite (msg : SidebarMsg)
| StError (msg : ErrorMsg)
| StSuccess
| SidebarHeader (s : string)
| AboutText
| ModelInfo (features : nat)
| Header (s : string)
| Subheader (s : string)
| Rule
| ResultBox (b : Box)
| Metric (label : string) (v : MetricValue)
| Caption (s : string)
| Progress (v : float)
| StatBox (label : string) (v : StatValue)
| Expander
| StWarning
| Footer.

(** The calls of the two functions of the pipeline, recorded at the place
    where the script makes them. *)
Inductive Call :=
| DetectLanguage (text : str)
| AnalyzeText (text : str).

Inductive Event :=
| Called (c : Call)
| Shown (e : Element).

Record Out (A : Type) := {
  res : result A;
  world : World;
  events : list Event
}.
Arguments res {A} o.
Arguments world {A} o.
Arguments events {A} o.

Definition Script (A : Type) : Type := World -> Out A.

Definition ret {A} (a : A) : Script A :=
  fun w => {| res := Ok a; world := w; events := [] |}.

Definition lift {A} (r : result A) : Script A :=
  fun w => {| res := r; world := w; events := [] |}.

Definition raise {A} (e : exn) : Script A := lift (Raise e).

Definition emit (ev : Event) : Script unit :=
  fun w => {| res := Ok tt; world := w; events := [ev] |}.

Definition show (el : Element) : Script unit := emit (Shown el).

(** The outcome [o], preceded by the events [evs]. *)
Definition prepend {A} (evs : list Event) (o : Out A) : Out A :=
  {| res := res o; world := world o; events := evs ++ events o |}.

(** Run [k] after [o]; an exception in [o] skips [k]. *)
Definition andThen {A B} (o : Out A) (k : A -> Script B) : Out B :=
  match res o with
  | Ok a => prepend (events o) (k a (world o))
  | Raise e => {| res := Raise e; world := world o; events := events o |}
  end.

Definition sbind {A B} (m : Script A) (k : A -> Script B) : Script B :=
  fun w => andThen (m w) k.

(** [try: body / except Exception as e: handler e] *)
Definition try_except_Exception {A} (body : Script A) (handler : exn -> Script A)
  : Script A :=
  fun w =>
    let o := body w in
    match res o with
    | Raise e =>
        if is_Exception e then prepend (events o) (handler e (world o)) else o
    | Ok _ => o
    end.

Definition set_cache (a : Artifact * Artifact) : Script unit :=
  fun w => {| res := Ok tt;
              world := {| cache := Some a; example := example w |};
              events := [] |}.

Definition set_example (s : str) : Script unit :=
  fun w => {| res := Ok tt;
              world := {| cache := cache w; example := Some s |};
              events := [] |}.

Declare Scope script_scope.
Delimit Scope script_scope with script.
Notation "x <- e ;; k" := (sbind e (fun x => k))
  (at level 61, e at next level, right associativity) : script_scope.
Notation "e ;; k" := (sbind e (fun _ => k))
  (at level 61, right associativity) : script_scope.

Section Page.
Variable env : Env.
Local Open Scope script_scope.

(** *** Artifact loader (lines 72-91) *)

Definition model_path : string :=
  BASE_DIR env ++ "/models/classical/logreg_toxic_only.joblib".

Definition vectorizer_path : string :=
  BASE_DIR env ++ "/models/classical/tfidf_vectorizer.joblib".

Definition load_model : Script (Artifact * Artifact) :=
  try_except_Exception
    (show (SidebarWrite (BaseDirIs (BASE_DIR env))) ;;
     show (SidebarWrite (ModelPathExists (path_exists env model_path))) ;;
     show (SidebarWrite (LookingForModelAt model_path)) ;;
     model <- lift (joblib_load env model_path) ;;
     vectorizer <- lift (joblib_load env vectorizer_path) ;;
     ret (model, vectorizer))
    (fun e =>
     show (StError (FailedToLoad e)) ;;
     show (StError (CurrentDirectory (cwd env))) ;;
     show (StError (ScriptDirectory (BASE_DIR env))) ;;
     files <- lift (if path_exists env (BASE_DIR env)
                    then (l <- iterdir env (BASE_DIR env) ;; Ok (Some l))%result
                    else Ok None) ;;
     show (StError (FilesInBaseDir files)) ;;
     raise e).

(** [@st.cache_resource]: the first successful result is kept for the life
    of the process; a call that raises stores nothing.  (On a hit the body
    is not run; the elements it rendered when it ran are left out here.) *)
Definition cache_resource (f : Script (Artifact * Artifact))
  : Script (Artifact * Artifact) :=
  fun w =>
    match cache w with
    | Some a => ret a w
    | None => (a <- f ;; set_cache a ;; ret a) w
    end.

(** *** Result display (lines 191-198) *)

Definition main_box (result : Verdict) : Box :=
  if is_toxic result then
    if Severity_eqb (severity result) HIGH
    then ToxicBox (severity result)
    else WarningBox (severity result)
  else SafeBox.

(** [st.progress(value)] with a float: an argument outside [0.0, 1.0] is
    refused.  (The library's tolerance of 1e-9 around the bounds is left
    out.) *)
Definition st_progress (value : float) : Script unit :=
  if ((0 <=? value) && (value <=? 1))%float
  then show (Progress value)
  else raise (Exception "StreamlitAPIException").

(** *** The analysis block (lines 180-250) *)

Definition analysis (text : str) (model vectorizer : Artifact) : Script unit :=
  emit (Called (DetectLanguage text)) ;;
  lang <- lift (detect_language (ucd env) (detect_langs env) text) ;;
  emit (Called (AnalyzeText text)) ;;
  result <- lift (analyze_text text model vectorizer) ;;
  show Rule ;;
  show (Header "Analysis Results") ;;
  show (ResultBox (main_box result)) ;;
  show (Metric "Language" (MText lang)) ;;
  show (Metric "Toxicity Score" (MPercent (confidence result * 100)%float)) ;;
  show (Metric "Severity Level" (MSeverity (severity result))) ;;
  show (Caption "Confidence Visualization:") ;;
  st_progress (confidence result) ;;
  show Rule ;;
  show (Subheader "Text Statistics") ;;
  show (StatBox "Words" (SCount (word_count text))) ;;
  show (StatBox "Characters" (SCount (char_count text))) ;;
  show (StatBox "Caps" (SYesNo (has_caps (ucd env) text))) ;;
  show (StatBox "Special Chars" (SYesNo (has_special text))) ;;
  show Expander.

(** *** The sidebar (lines 131-156) *)

Definition when (b : bool) (m : Script unit) : Script unit :=
  if b then m else ret tt.

Definition sidebar (inp : Inputs) (vectorizer : Artifact) : Script unit :=
  show (SidebarHeader "About") ;;
  show AboutText ;;
  show (SidebarHeader "Model Info") ;;
  n <- lift (vocabulary_len vectorizer) ;;
  show (ModelInfo n) ;;
  show (SidebarHeader "Examples") ;;
  when (example1_btn inp)
    (set_example (of_string "You are awesome! Great work!")) ;;
  when (example2_btn inp)
    (set_example (of_string "This is stupid and you're an idiot")) ;;
  when (example3_btn inp)
    (set_example (of_string "Bodoh punya orang")).

(** *** Loading at startup (lines 123-128) *)

Definition startup : Script (Artifact * Artifact) :=
  try_except_Exception
    (a <- cache_resource load_model ;; show StSuccess ;; ret a)
    (fun e => show (StError (FailedToLoad e)) ;; raise StopException).

(** *** The clear action (lines 174-176) *)

Definition clear_action (inp : Inputs) : Script unit :=
  when (clear_btn inp) (set_example [] ;; raise RerunException).

(** *** The analysis guard and the empty-input warning (lines 179, 252) *)

Definition analyze_action (inp : Inputs) (model vectorizer : Artifact)
  : Script unit :=
  if analyze_btn inp && truthy (strip (text_input inp))
  then analysis (text_input inp) model vectorizer
  else if analyze_btn inp
  then show StWarning
  else ret tt.

(** *** The page once the artifacts are there (lines 130-262) *)

Definition page (inp : Inputs) (model vectorizer : Artifact) : Script unit :=
  sidebar inp vectorizer ;;
  show (Header "Enter Text to Analyze") ;;
  clear_action inp ;;
  analyze_action inp model vectorizer ;;
  show Rule ;;
  show Footer.

(** *** The whole script, top to bottom *)

Definition script (inp : Inputs) : Script unit :=
  show PageConfig ;;
  show Css ;;
  show Title ;;
  show Subtitle ;;
  arts <- startup ;;
  page inp (fst arts) (snd arts).

End Page.

End App.

(** * Sample artifacts, detectors and environments

    Concrete inhabitants of the interfaces above, used to run the definitions
    on explicit inputs. *)

Module Sample.
Import Py App.
Local Open Scope string_scope.

Definition AttributeError {A} : result A := Raise (Exception "AttributeError").

(** A classifier that assigns probability [p] to the toxic class of every
    row and predicts [label] for it. *)
Definition classifier (p : float) (label : Z) : Artifact :=
  {| transform := fun _ => AttributeError;
     predict_proba := fun X => Ok (map (fun _ => [(1 - p)%float; p]) X);
     predict := fun X => Ok (map (fun _ => label) X);
     vocabulary_len := AttributeError |}.

(** A vectorizer with a one-word vocabulary: the feature of a document is
    its number of characters.  It refuses a document that contains the
    code point 0. *)
Definition has_nul (doc : str) : bool := existsb (N.eqb 0) doc.

Definition feature_of_length (n : nat) : float :=
  PrimFloat.of_uint63 (Uint63.of_Z (Z.of_nat n)).

Definition vectorizer : Artifact :=
  {| transform := fun docs =>
       if existsb has_nul docs
       then Raise (Exception "ValueError")
       else Ok (map (fun d => [feature_of_length (List.length d)]) docs);
     predict_proba := fun _ => AttributeError;
     predict := fun _ => AttributeError;
     vocabulary_len := Ok 1 |}.

(** A detector in the manner of [langdetect]: it raises when the text has
    no letter, and otherwise answers English, then Malay. *)
Definition is_letter (c : char) : bool :=
  in_range 65 90 c || in_range 97 122 c.

Definition detector (text : str) : result (list Language) :=
  if existsb is_letter text
  then Ok [ {| lang := of_string "en"; prob := 0.75%float |};
            {| lang := of_string "ms"; prob := 0.25%float |} ]
  else Raise (Exception "LangDetectException").

(** A file system that holds both artifacts under [/app]. *)
Definition files (p : float) (label : Z) (path : string) : result Artifact :=
  if String.eqb path "/app/models/classical/logreg_toxic_only.joblib"
  then Ok (classifier p label)
  else if String.eqb path "/app/models/classical/tfidf_vectorizer.joblib"
  then Ok vectorizer
  else Raise (Exception "FileNotFoundError").

Definition env_with (load : string -> result Artifact) : Env :=
  {| BASE_DIR := "/app";
     cwd := "/app";
     path_exists := fun path =>
       match load path with Ok _ => true | Raise _ => String.eqb path "/app" end;
     iterdir := fun _ => Ok ["models"; "app_simple.py"];
     joblib_load := load;
     detect_langs := detector;
     ucd := caseless |}.

Definition env (p : float) (label : Z) : Env := env_with (files p label).

(** A file system from which the vectorizer file is missing. *)
Definition files_no_vectorizer (path : string) : result Artifact :=
  if String.eqb path "/app/models/classical/logreg_toxic_only.joblib"
  then Ok (classifier 0.5%float 0)
  else Raise (Exception "FileNotFoundError").

Definition fresh : World := {| cache := None; example := None |}.

(** A classifier fitted on one class only: its probability matrix has a
    single column. *)
Definition one_class_classifier : Artifact :=
  {| transform := fun _ => AttributeError;
     predict_proba := fun X => Ok (map (fun _ => [1%float]) X);
     predict := fun X => Ok (map (fun _ => 0%Z) X);
     vocabulary_len := AttributeError |}.

(** An object that loads but is no vectorizer: it has [transform] and no
    [vocabulary_]. *)
Definition bare_transformer : Artifact :=
  {| transform := fun docs => Ok (map (fun _ => [0%float]) docs);
     predict_proba := fun _ => AttributeError;
     predict := fun _ => AttributeError;
     vocabulary_len := AttributeError |}.

(** An environment whose base directory exists and cannot be listed. *)
Definition env_unlistable (load : string -> result Artifact) : Env :=
  {| BASE_DIR := "/app";
     cwd := "/app";
     path_exists := fun path => String.eqb path "/app";
     iterdir := fun _ => Raise (Exception "PermissionError");
     joblib_load := load;
     detect_langs := detector;
     ucd := caseless |}.

(** A load interrupted from the keyboard. *)
Definition files_interrupted (path : string) : result Artifact :=
  Raise (BaseException "KeyboardInterrupt").

(** A file system that holds a classifier and, in the vectorizer's place,
    an object without vocabulary. *)
Definition files_bare (path : string) : result Artifact :=
  if String.eqb path "/app/models/classical/logreg_toxic_only.joblib"
  then Ok (classifier 0.9%float 1)
  else if String.eqb path "/app/models/classical/tfidf_vectorizer.joblib"
  then Ok bare_transformer
  else Raise (Exception "FileNotFoundError").

Definition loaded (p : float) (label : Z) : World :=
  {| cache := Some (classifier p label, vectorizer); example := None |}.

Definition request (text : string) : Inputs :=
  {| text_input := of_string text;
     analyze_btn := true;
     clear_btn := false;
     example1_btn := false;
     example2_btn := false;
     example3_btn := false |}.

End Sample.

(** * Notions used to state the properties

    The contracts of the external libraries, the specification's notions
    (blank text, whitespace-separated tokens, a failure of the underlying
    artifacts) and the observations made on a run of the script. *)

Module Spec.
Import Py App.
Local Open Scope string_scope.
Local Open Scope float_scope.


(** The contract of [detect_langs]: candidates come most probable first. *)
Definition by_probability (a b : Language) : Prop :=
  (prob b <=? prob a) = true.

Definition most_probable_first (langs : list Language) : Prop :=
  StronglySorted by_probability langs.

(** A text that is empty or consists only of whitespace. *)
Definition blank (text : str) : bool := forallb isspace text.

(** The number of whitespace-separated tokens of a text: the positions
    that hold a non-whitespace character and come first in the text or
    right after a whitespace character.  [after_space] tells whether the
    position before the head of [s] is such a place. *)
Fixpoint token_starts (after_space : bool) (s : str) : nat :=
  match s with
  | [] => 0
  | c :: s' =>
      if isspace c then token_starts true s'
      else (if after_space then 1 else 0) + token_starts false s'
  end.

Definition token_count (text : str) : nat := token_starts true text.

Definition nonspace (c : char) : bool := negb (isspace c).

(** A token: a non-empty piece of text without whitespace. *)
Definition token_ok (t : str) : Prop :=
  t <> [] /\ forallb nonspace t = true.

(** Whether the scan of [split] is inside a token, given the characters
    read of it so far. *)
Definition in_token (tok : str) : bool :=
  match tok with [] => false | _ :: _ => true end.

(** One of the calls the scorer makes on the artifacts raises [e]: the
    transform, or [predict_proba] on its result, or [predict] once the
    toxic-class probability has been read. *)
Definition underlying_failure
    (text : str) (model vectorizer : Artifact) (e : exn) : Prop :=
  transform vectorizer [text] = Raise e \/
  exists X,
    transform vectorizer [text] = Ok X /\
    (predict_proba model X = Raise e \/
     exists P row p,
       predict_proba model X = Ok P /\
       nth_error P 0 = Some row /\ nth_error row 1 = Some p /\
       predict model X = Raise e).

(** The same environment with another language detector. *)
Definition with_detector
    (env : Env) (dl : str -> result (list Language)) : Env :=
  {| BASE_DIR := BASE_DIR env;
     cwd := cwd env;
     path_exists := path_exists env;
     iterdir := iterdir env;
     joblib_load := joblib_load env;
     detect_langs := dl;
     ucd := ucd env |}.

(** The events that carry the language guess: the "Language" metric, the
    only metric whose value is a string. *)
Definition shows_language (ev : Event) : bool :=
  match ev with
  | Shown (Metric _ (MText _)) => true
  | _ => false
  end.

Definition without_language (evs : list Event) : list Event :=
  filter (fun ev => negb (shows_language ev)) evs.

(** The events by which the scorer or the detector is reached. *)
Definition is_call (ev : Event) : bool :=
  match ev with Called _ => true | Shown _ => false end.

Definition shows_result (ev : Event) : bool :=
  match ev with Shown (ResultBox _) => true | _ => false end.

(** An event that neither reaches the detector or the scorer nor shows a
    result. *)
Definition quiet (ev : Event) : bool :=
  negb (is_call ev) && negb (shows_result ev).

Definition Quiet (evs : list Event) : Prop :=
  Forall (fun ev => quiet ev = true) evs.

(** The end of the page, after the analysis block [o]: the rule and the
    footer. *)
Definition then_footer (o : Out unit) : Out unit :=
  andThen o (fun _ => sbind (show Rule) (fun _ => show Footer)).

(** The run showed the empty-input warning, unless it ended early in an
    exception. *)
Definition Warned {A} (o : Out A) : Prop :=
  In (Shown StWarning) (events o) \/ exists e, res o = Raise e.

(** Two runs that differ at most in the language they display. *)
Definition same_but_language {A} (o1 o2 : Out A) : Prop :=
  res o1 = res o2 /\ world o1 = world o2 /\
  without_language (events o1) = without_language (events o2).

(** Loading one of the two artifact files fails. *)
Definition load_fails (env : Env) : Prop :=
  (exists e, joblib_load env (model_path env) = Raise e) \/
  (exists e, joblib_load env (vectorizer_path env) = Raise e).

(** What the analysis block does, given the language guess and the
    result of the scorer: the calls it makes and the elements it shows. *)
Definition shown_verdict (lang : str) (v : Verdict) : list Event :=
  [Shown Rule;
   Shown (Header "Analysis Results");
   Shown (ResultBox (main_box v));
   Shown (Metric "Language" (MText lang));
   Shown (Metric "Toxicity Score" (MPercent (confidence v * 100)));
   Shown (Metric "Severity Level" (MSeverity (severity v)));
   Shown (Caption "Confidence Visualization:")].

Definition shown_statistics (ucd : Unicode) (text : str) : list Event :=
  [Shown Rule;
   Shown (Subheader "Text Statistics");
   Shown (StatBox "Words" (SCount (word_count text)));
   Shown (StatBox "Characters" (SCount (char_count text)));
   Shown (StatBox "Caps" (SYesNo (has_caps ucd text)));
   Shown (StatBox "Special Chars" (SYesNo (has_special text)));
   Shown Expander].

Definition analysis_outcome
    (ucd : Unicode) (text lang : str) (r : result Verdict) (w : World)
  : Out unit :=
  match r with
  | Raise e =>
      {| res := Raise e;
         world := w;
         events := [Called (DetectLanguage text); Called (AnalyzeText text)] |}
  | Ok v =>
      let shown := (Called (DetectLanguage text) :: Called (AnalyzeText text)
                    :: shown_verdict lang v)%list in
      if (0 <=? confidence v) && (confidence v <=? 1)
      then {| res := Ok tt;
              world := w;
              events := (shown ++ Shown (Progress (confidence v))
                                  :: shown_statistics ucd text)%list |}
      else {| res := Raise (Exception "StreamlitAPIException");
              world := w;
              events := shown |}
  end.

(** ** Further notions *)

(** The order of the severity levels. *)
Definition Severity_rank (s : Severity) : nat :=
  match s with LOW => 0 | MEDIUM => 1 | HIGH => 2 end.

(** A classifier whose predicted label is the toxic one exactly when the
    toxic-class probability is above one half, as a binary logistic
    regression decides. *)
Definition decides_at_half (model : Artifact) : Prop :=
  forall X P labels row p pred,
    predict_proba model X = Ok P ->
    predict model X = Ok labels ->
    nth_error P 0 = Some row ->
    nth_error row 1 = Some p ->
    nth_error labels 0 = Some pred ->
    (bool_of_label pred = true <-> (0.5 <? p) = true).

(** The artifacts answer, but without the entries the scorer reads: no
    first row or no second column in the probabilities, or no first
    label. *)
Definition malformed_output (text : str) (model vectorizer : Artifact) : Prop :=
  exists X P,
    transform vectorizer [text] = Ok X /\
    predict_proba model X = Ok P /\
    (nth_error P 0 = None \/
     (exists row, nth_error P 0 = Some row /\ nth_error row 1 = None) \/
     (exists row p,
        nth_error P 0 = Some row /\ nth_error row 1 = Some p /\
        predict model X = Ok [])).

(** Lexicographic comparison of exponent and mantissa, by which two finite
    binary64 numbers of the same sign compare. *)
Definition lexcmp (e1 : Z) (m1 : positive) (e2 : Z) (m2 : positive)
  : comparison :=
  match (e1 ?= e2)%Z with
  | Eq => Pos.compare_cont Eq m1 m2
  | Lt => Lt
  | Gt => Gt
  end.

(** A string of ASCII characters. *)
Definition is_ascii (s : str) : bool := forallb (fun c => (c <? 128)%N) s.

Definition is_ascii_lower (c : char) : bool := in_range 97 122 c.

(** ** A run of the script, case by case

    The outcome of a run written out as a table of its cases, against which
    the script is checked and from which the properties of whole runs are
    read. *)

(** The artifacts a run works with: the cached ones, or else the ones it
    loads, if both load. *)
Definition artifacts (env : Env) (w : World) : option (Artifact * Artifact) :=
  match cache w with
  | Some a => Some a
  | None =>
      match joblib_load env (model_path env) with
      | Ok m =>
          match joblib_load env (vectorizer_path env) with
          | Ok vz => Some (m, vz)
          | Raise _ => None
          end
      | Raise _ => None
      end
  end.

(** The exception of the load that fails first: the classifier's, or the
    vectorizer's once the classifier has loaded. *)
Definition first_load_error (env : Env) (e : exn) : Prop :=
  joblib_load env (model_path env) = Raise e \/
  exists m,
    joblib_load env (model_path env) = Ok m /\
    joblib_load env (vectorizer_path env) = Raise e.

Definition load_writes (env : Env) : list Event :=
  [Shown (SidebarWrite (BaseDirIs (BASE_DIR env)));
   Shown (SidebarWrite (ModelPathExists (path_exists env (model_path env))));
   Shown (SidebarWrite (LookingForModelAt (model_path env)))].

Definition load_errors (env : Env) (e : exn) : list Event :=
  [Shown (StError (FailedToLoad e));
   Shown (StError (CurrentDirectory (cwd env)));
   Shown (StError (ScriptDirectory (BASE_DIR env)))].

(** What [load_model] does when the first failing load raises [e]. *)
Definition load_failure_outcome {A} (env : Env) (e : exn) (w : World) : Out A :=
  if is_Exception e then
    if path_exists env (BASE_DIR env) then
      match iterdir env (BASE_DIR env) with
      | Ok l =>
          {| res := Raise e; world := w;
             events := (load_writes env ++ load_errors env e
                        ++ [Shown (StError (FilesInBaseDir (Some l)))])%list |}
      | Raise e' =>
          {| res := Raise e'; world := w;
             events := (load_writes env ++ load_errors env e)%list |}
      end
    else
      {| res := Raise e; world := w;
         events := (load_writes env ++ load_errors env e
                    ++ [Shown (StError (FilesInBaseDir None))])%list |}
  else {| res := Raise e; world := w; events := load_writes env |}.

(** What the [try] around the call of [load_model] makes of an exception
    [e1] that comes out of it. *)
Definition stop_on_error {A} (e1 : exn) (w : World) (evs : list Event) : Out A :=
  if is_Exception e1
  then {| res := Raise StopException; world := w;
          events := (evs ++ [Shown (StError (FailedToLoad e1))])%list |}
  else {| res := Raise e1; world := w; events := evs |}.

Definition startup_failure_outcome {A} (env : Env) (e : exn) (w : World)
  : Out A :=
  let o := @load_failure_outcome A env e w in
  match res o with
  | Raise e1 => stop_on_error e1 (world o) (events o)
  | Ok _ => o
  end.

(** The example text in the session after the sidebar: that of the last
    example button pressed, if any. *)
Definition chosen_example (inp : Inputs) (ex : option str) : option str :=
  if example3_btn inp then Some (of_string "Bodoh punya orang")
  else if example2_btn inp
  then Some (of_string "This is stupid and you're an idiot")
  else if example1_btn inp then Some (of_string "You are awesome! Great work!")
  else ex.

Definition after_sidebar (inp : Inputs) (w : World) : World :=
  {| cache := cache w; example := chosen_example inp (example w) |}.

Definition sidebar_events (n : nat) : list Event :=
  [Shown (SidebarHeader "About");
   Shown AboutText;
   Shown (SidebarHeader "Model Info");
   Shown (ModelInfo n);
   Shown (SidebarHeader "Examples")].

(** From the clear action to the footer. *)
Definition action_outcome
    (ucd : Unicode) (inp : Inputs) (m vz : Artifact) (lang : str) (w : World)
  : Out unit :=
  if clear_btn inp then
    {| res := Raise RerunException;
       world := {| cache := cache w; example := Some nil |};
       events := nil |}
  else
    then_footer
      (if analyze_btn inp && negb (blank (text_input inp))
       then analysis_outcome ucd (text_input inp) lang
              (analyze_text (text_input inp) m vz) w
       else if analyze_btn inp
       then {| res := Ok tt; world := w; events := [Shown StWarning] |}
       else {| res := Ok tt; world := w; events := nil |}).

Definition page_outcome
    (ucd : Unicode) (inp : Inputs) (m vz : Artifact) (lang : str) (w : World)
  : Out unit :=
  match vocabulary_len vz with
  | Raise e =>
      {| res := Raise e; world := w;
         events := [Shown (SidebarHeader "About"); Shown AboutText;
                    Shown (SidebarHeader "Model Info")] |}
  | Ok n =>
      prepend
        (sidebar_events n ++ [Shown (Header "Enter Text to Analyze")])%list
        (action_outcome ucd inp m vz lang (after_sidebar inp w))
  end.

Definition script_head : list Event :=
  [Shown PageConfig; Shown Css; Shown Title; Shown Subtitle].

Definition script_outcome (env : Env) (inp : Inputs) (lang : str) (w : World)
  : Out unit :=
  prepend script_head
    match cache w with
    | Some (m, vz) =>
        prepend [Shown StSuccess] (page_outcome (ucd env) inp m vz lang w)
    | None =>
        match joblib_load env (model_path env) with
        | Raise e => startup_failure_outcome env e w
        | Ok m =>
            match joblib_load env (vectorizer_path env) with
            | Raise e => startup_failure_outcome env e w
            | Ok vz =>
                prepend (load_writes env ++ [Shown StSuccess])%list
                  (page_outcome (ucd env) inp m vz lang
                     {| cache := Some (m, vz); example := example w |})
            end
        end
    end.

(** The events that tell what a run did with the request: the calls, the
    result box and the empty-input warning. *)
Definition is_warning (ev : Event) : bool :=
  match ev with Shown StWarning => true | _ => false end.

Definition notable (ev : Event) : bool :=
  is_call ev || shows_result ev || is_warning ev.

(** The example text in the session after a run. *)
Definition next_example (env : Env) (inp : Inputs) (w : World) : option str :=
  match artifacts env w with
  | Some (m, vz) =>
      match vocabulary_len vz with
      | Ok _ =>
          if clear_btn inp then Some nil
          else chosen_example inp (example w)
      | Raise _ => example w
      end
  | None => example w
  end.

(** The artifacts with which the run reaches the scorer, if it does: it has
    artifacts, reads the vocabulary, is not cleared, and the analyze button is
    pressed on a text that is not blank. *)
Definition scored_with (env : Env) (inp : Inputs) (w : World)
  : option (Artifact * Artifact) :=
  match artifacts env w with
  | Some (m, vz) =>
      match vocabulary_len vz with
      | Ok _ =>
          if negb (clear_btn inp) && analyze_btn inp
             && negb (blank (text_input inp))
          then Some (m, vz)
          else None
      | Raise _ => None
      end
  | None => None
  end.

(** The notable events of a run, in order. *)
Definition notable_of_run (env : Env) (inp : Inputs) (w : World) : list Event :=
  match artifacts env w with
  | Some (m, vz) =>
      match vocabulary_len vz with
      | Ok _ =>
          if clear_btn inp then nil
          else if analyze_btn inp then
            if blank (text_input inp) then [Shown StWarning]
            else Called (DetectLanguage (text_input inp))
                 :: Called (AnalyzeText (text_input inp))
                 :: match analyze_text (text_input inp) m vz with
                    | Ok v => [Shown (ResultBox (main_box v))]
                    | Raise _ => nil
                    end
          else nil
      | Raise _ => nil
      end
  | None => nil
  end.

(** The directory listing that [load_model] puts in its last error
    message. *)
Definition listing (env : Env) : result (option (list string)) :=
  if path_exists env (BASE_DIR env)
  then match iterdir env (BASE_DIR env) with
       | Ok l => Ok (Some l)
       | Raise e => Raise e
       end
  else Ok None.

(** Whether the run gets past the sidebar and the clear action with
    artifacts [m] and [vz]. *)
Definition reaches_action (env : Env) (inp : Inputs) (w : World)
    (m vz : Artifact) : Prop :=
  artifacts env w = Some (m, vz) /\
  (exists n, vocabulary_len vz = Ok n) /\
  clear_btn inp = false.

End Spec.

(** * IEEE-754 binary64 comparison facts

    Python floats and [numpy.float64] values are binary64 numbers; they are
    embedded as Rocq's primitive floats, whose comparisons are specified by
    [SFcompare] on [spec_float]. *)

Module F64.
Local Open Scope float_scope.

Lemma SFcompare_swap (x y : spec_float) :
  SFcompare y x = option_map CompOpp (SFcompare x y).
Proof.
  destruct x as [sx|sx| |sx mx ex], y as [sy|sy| |sy my ey]; simpl;
    try reflexivity; try (destruct sx; reflexivity);
    try (destruct sy; reflexivity);
    try (destruct sx, sy; reflexivity).
  f_equal. rewrite (Z.compare_antisym ey ex).
  pose proof (Pos.compare_cont_antisym mx my Eq) as Hm. simpl in Hm.
  change PosDef.Pos.compare_cont with Pos.compare_cont.
  destruct sx, sy; simpl; try reflexivity;
    destruct (ey ?= ex)%Z; simpl; rewrite ?CompOpp_involutive;
    try reflexivity; rewrite <- Hm, ?CompOpp_involutive; reflexivity.
Qed.

Lemma SFcompare_refl (x : spec_float) :
  SFcompare x x = match x with S754_nan => None | _ => Some Eq end.
Proof.
  destruct x as [s|s| |s m e]; simpl; try reflexivity.
  - now destruct s.
  - rewrite Z.compare_refl, Pos.compare_cont_refl. now destruct s.
Qed.

Lemma SFcompare_nan_r (x y : spec_float) :
  SFcompare x y = None -> x = S754_nan \/ y = S754_nan.
Proof.
  destruct x, y; simpl; try discriminate; auto.
Qed.

Lemma is_nan_spec (p : float) :
  is_nan p = match Prim2SF p with S754_nan => true | _ => false end.
Proof.
  unfold is_nan. rewrite FloatAxioms.eqb_spec. unfold SFeqb.
  rewrite SFcompare_refl. now destruct (Prim2SF p).
Qed.

(** [p <= q] is the negation of [q < p] exactly when neither side is a NaN. *)
Lemma leb_negb_ltb (p q : float) :
  is_nan p = false -> is_nan q = false -> (p <=? q) = negb (q <? p).
Proof.
  rewrite !is_nan_spec, leb_spec, ltb_spec. unfold SFleb, SFltb.
  rewrite (SFcompare_swap (Prim2SF p) (Prim2SF q)).
  destruct (SFcompare (Prim2SF p) (Prim2SF q)) as [[]|] eqn:E; simpl; auto.
  apply SFcompare_nan_r in E. destruct E as [-> | ->]; discriminate.
Qed.

(** An ordered comparison that holds has no NaN operand. *)
Lemma ltb_true_not_nan (p q : float) :
  (p <? q) = true -> is_nan p = false /\ is_nan q = false.
Proof.
  rewrite !is_nan_spec, ltb_spec. unfold SFltb.
  destruct (Prim2SF p), (Prim2SF q); simpl; auto; discriminate.
Qed.

Lemma leb_true_not_nan (p q : float) :
  (p <=? q) = true -> is_nan p = false /\ is_nan q = false.
Proof.
  rewrite !is_nan_spec, leb_spec. unfold SFleb.
  destruct (Prim2SF p), (Prim2SF q); simpl; auto; discriminate.
Qed.

End F64.

(** * Properties of the scorer *)

Module ScorerProps.
Import Py App.
Local Open Scope float_scope.

Lemma analyze_text_inv (text : str) (model vectorizer : Artifact) (v : Verdict) :
  analyze_text text model vectorizer = Ok v ->
  exists X P row p labels pred,
    transform vectorizer [text] = Ok X /\
    predict_proba model X = Ok P /\
    nth_error P 0 = Some row /\
    nth_error row 1 = Some p /\
    predict model X = Ok labels /\
    nth_error labels 0 = Some pred /\
    v = {| is_toxic := bool_of_label pred;
           confidence := p;
           severity := severity_of p |}.
Proof.
  unfold analyze_text, getitem, bind.
  destruct (transform vectorizer [text]) as [X|] eqn:HX; [|discriminate].
  destruct (predict_proba model X) as [P|] eqn:HP; [|discriminate].
  destruct (nth_error P 0) as [row|] eqn:Hrow; [|discriminate].
  destruct (nth_error row 1) as [p|] eqn:Hp; [|discriminate].
  destruct (predict model X) as [labels|] eqn:HL; [|discriminate].
  destruct (nth_error labels 0) as [pred|] eqn:Hpred; [|discriminate].
  intros [= <-]. exists X, P, row, p, labels, pred. repeat split; assumption.
Qed.

Lemma severity_of_HIGH (p : float) :
  severity_of p = HIGH <-> (0.8 <? p) = true.
Proof.
  unfold severity_of. destruct (0.8 <? p); [tauto|].
  destruct (0.5 <? p); split; discriminate.
Qed.

Lemma severity_of_MEDIUM (p : float) :
  severity_of p = MEDIUM <-> (0.5 <? p) = true /\ (p <=? 0.8) = true.
Proof.
  unfold severity_of.
  destruct (0.5 <? p) eqn:H5.
  - destruct (F64.ltb_true_not_nan _ _ H5) as [H5n Hp].
    rewrite (F64.leb_negb_ltb p 0.8 Hp) by reflexivity.
    destruct (0.8 <? p); simpl; split; try tauto; try discriminate.
    intros [_ H]; discriminate.
  - destruct (0.8 <? p); split; try discriminate; intros [H _]; discriminate.
Qed.

Lemma ltb_half_of_ltb_high (p : float) : (0.8 <? p) = true -> (0.5 <? p) = true.
Proof.
  rewrite !ltb_spec. unfold SFltb.
  change (Prim2SF 0.8) with (S754_finite false 7205759403792794 (-53)).
  change (Prim2SF 0.5) with (S754_finite false 4503599627370496 (-53)).
  unfold SFcompare.
  destruct (Prim2SF p) as [s|s| |s m e]; try (intros; assumption).
  destruct s; [discriminate|].
  destruct (-53 ?= e)%Z; try (intros; assumption).
  assert (Hm : (7205759403792794 ?= m)%positive = Lt ->
               (4503599627370496 ?= m)%positive = Lt)
    by (rewrite !Pos.compare_lt_iff; lia).
  unfold Pos.compare in Hm.
  change PosDef.Pos.compare_cont with Pos.compare_cont.
  destruct (Pos.compare_cont Eq 7205759403792794 m); try discriminate.
  intros _. now rewrite Hm.
Qed.

Lemma severity_of_not_above_half (p : float) :
  severity_of p = LOW <-> (0.5 <? p) = false.
Proof.
  unfold severity_of.
  destruct (0.8 <? p) eqn:H8.
  - rewrite (ltb_half_of_ltb_high p H8). split; discriminate.
  - destruct (0.5 <? p); split; try tauto; discriminate.
Qed.

Lemma severity_of_LOW (p : float) :
  is_nan p = false -> (severity_of p = LOW <-> (p <=? 0.5) = true).
Proof.
  intros Hp. rewrite severity_of_not_above_half.
  rewrite (F64.leb_negb_ltb p 0.5 Hp) by reflexivity.
  destruct (0.5 <? p); simpl; split; try tauto; discriminate.
Qed.

Example analyze_text_examples :
  analyze_text (of_string "hi") (Sample.classifier 0.8 1) Sample.vectorizer
  = Ok {| is_toxic := true; confidence := 0.8; severity := MEDIUM |} /\
  analyze_text (of_string "hi") (Sample.classifier 0.5 0) Sample.vectorizer
  = Ok {| is_toxic := false; confidence := 0.5; severity := LOW |} /\
  analyze_text (of_string "hi") (Sample.classifier 0.9 1) Sample.vectorizer
  = Ok {| is_toxic := true; confidence := 0.9; severity := HIGH |} /\
  analyze_text [0%N] (Sample.classifier 0.9 1) Sample.vectorizer
  = Raise (Exception "ValueError") /\
  analyze_text (of_string "hi") Sample.vectorizer Sample.vectorizer
  = Raise (Exception "AttributeError").
Proof. repeat split; reflexivity. Qed.

(** C1: for a verdict returned by the scorer, the severity is the function
    [severity_of] of the confidence [p]: HIGH exactly when [p > 0.8], MEDIUM
    exactly when [0.5 < p <= 0.8], LOW exactly when [p > 0.5] fails, which
    for a number [p] (as opposed to a NaN) is [p <= 0.5]; [p = 0.8] gives
    MEDIUM and [p = 0.5] gives LOW. *)
Theorem severity_breakpoints
    (text : str) (model vectorizer : Artifact) (v : Verdict) :
  analyze_text text model vectorizer = Ok v ->
  let p := confidence v in
  severity v = severity_of p /\
  (severity v = HIGH <-> (0.8 <? p) = true) /\
  (severity v = MEDIUM <-> (0.5 <? p) = true /\ (p <=? 0.8) = true) /\
  (severity v = LOW <-> (0.5 <? p) = false) /\
  (is_nan p = false -> (severity v = LOW <-> (p <=? 0.5) = true)) /\
  (p = 0.8 -> severity v = MEDIUM) /\
  (p = 0.5 -> severity v = LOW).
Proof.
  intros H.
  destruct (analyze_text_inv _ _ _ _ H)
    as (X & P & row & p & labels & pred & _ & _ & _ & _ & _ & _ & ->).
  cbn [confidence severity].
  split; [reflexivity|].
  split; [apply severity_of_HIGH|].
  split; [apply severity_of_MEDIUM|].
  split; [apply severity_of_not_above_half|].
  split; [apply severity_of_LOW|].
  split; intros ->; reflexivity.
Qed.

Lemma severity_breakpoints_witness :
  exists v : Verdict,
    analyze_text (of_string "hi") (Sample.classifier 0.8 1) Sample.vectorizer
      = Ok v /\
    confidence v = 0.8 /\ severity v = MEDIUM.
Proof.
  eexists. split; [reflexivity|]. split; [reflexivity|].
  refine (proj1 (proj2 (proj2 (proj2 (proj2 (proj2
    (severity_breakpoints (of_string "hi") (Sample.classifier 0.8 1)
       Sample.vectorizer _ eq_refl)))))) eq_refl).
Defined.

(** C2: [is_toxic] is the boolean of the label that [model.predict] returns
    for the vectorized text; it does not depend on [predict_proba], and
    verdicts with [is_toxic = false] and severity MEDIUM or HIGH, or with
    [is_toxic = true] and severity LOW, are possible. *)
Theorem is_toxic_is_predicted_label :
  (forall text model vectorizer v,
     analyze_text text model vectorizer = Ok v ->
     exists X labels pred,
       transform vectorizer [text] = Ok X /\
       predict model X = Ok labels /\
       nth_error labels 0 = Some pred /\
       is_toxic v = bool_of_label pred) /\
  (forall text m1 m2 vectorizer v1 v2,
     (forall X, predict m1 X = predict m2 X) ->
     analyze_text text m1 vectorizer = Ok v1 ->
     analyze_text text m2 vectorizer = Ok v2 ->
     is_toxic v1 = is_toxic v2) /\
  (exists text model vectorizer v,
     analyze_text text model vectorizer = Ok v /\
     is_toxic v = false /\ severity v = MEDIUM) /\
  (exists text model vectorizer v,
     analyze_text text model vectorizer = Ok v /\
     is_toxic v = false /\ severity v = HIGH) /\
  (exists text model vectorizer v,
     analyze_text text model vectorizer = Ok v /\
     is_toxic v = true /\ severity v = LOW).
Proof.
  split; [|split; [|split; [|split]]].
  - intros text model vectorizer v H.
    destruct (analyze_text_inv _ _ _ _ H)
      as (X & P & row & p & labels & pred & HX & _ & _ & _ & HL & Hp & ->).
    exists X, labels, pred. repeat split; assumption.
  - intros text m1 m2 vectorizer v1 v2 Hsame H1 H2.
    destruct (analyze_text_inv _ _ _ _ H1)
      as (X1 & P1 & r1 & p1 & l1 & d1 & HX1 & _ & _ & _ & HL1 & Hd1 & ->).
    destruct (analyze_text_inv _ _ _ _ H2)
      as (X2 & P2 & r2 & p2 & l2 & d2 & HX2 & _ & _ & _ & HL2 & Hd2 & ->).
    cbn [is_toxic].
    rewrite HX1 in HX2. injection HX2 as <-.
    rewrite Hsame, HL2 in HL1. injection HL1 as <-.
    rewrite Hd1 in Hd2. now injection Hd2 as <-.
  - exists (of_string "hi"), (Sample.classifier 0.75 0), Sample.vectorizer.
    eexists. split; [reflexivity|]. split; reflexivity.
  - exists (of_string "hi"), (Sample.classifier 0.9 0), Sample.vectorizer.
    eexists. split; [reflexivity|]. split; reflexivity.
  - exists (of_string "hi"), (Sample.classifier 0.25 1), Sample.vectorizer.
    eexists. split; [reflexivity|]. split; reflexivity.
Qed.

Lemma is_toxic_is_predicted_label_witness :
  exists v : Verdict,
    analyze_text (of_string "hi") (Sample.classifier 0.9 0) Sample.vectorizer
      = Ok v /\
    is_toxic v = false /\ severity v = HIGH.
Proof.
  eexists. split; [reflexivity|]. split; [|reflexivity].
  destruct (proj1 is_toxic_is_predicted_label
              (of_string "hi") (Sample.classifier 0.9 0) Sample.vectorizer
              _ eq_refl)
    as (X & labels & pred & HX & HL & Hpred & ->).
  injection HX as <-. injection HL as <-. now injection Hpred as <-.
Defined.




End ScorerProps.

(** * Properties of the language detector *)

Module DetectorProps.
Import Py App.

Lemma detect_language_cases
    (ucd : Unicode) (detect_langs : str -> result (list Language)) (text : str) :
  detect_language ucd detect_langs text =
  match detect_langs text with
  | Ok (l :: _) => Ok (upper ucd (lang l))
  | Ok [] => Ok UNKNOWN
  | Raise _ => Ok UNKNOWN
  end.
Proof.
  unfold detect_language, detect_language_try, try_except, bind.
  destruct (detect_langs text) as [[|l rest]|e]; reflexivity.
Qed.

Lemma detect_language_total
    (ucd : Unicode) (detect_langs : str -> result (list Language)) (text : str) :
  exists code, detect_language ucd detect_langs text = Ok code.
Proof.
  rewrite detect_language_cases.
  destruct (detect_langs text) as [[|l rest]|e]; eexists; reflexivity.
Qed.

(** C3: whatever [detect_langs] does on a text, raising included, the
    detector returns a string and raises nothing: the upper-cased code of the
    first candidate (the most probable one, candidates being listed most
    probable first), or "UNKNOWN" when there is no candidate or the library
    raised. *)
Theorem detect_language_never_raises
    (ucd : Unicode) (detect_langs : str -> result (list Language)) (text : str) :
  exists code : str,
    detect_language ucd detect_langs text = Ok code /\
    (forall e, detect_langs text = Raise e -> code = UNKNOWN) /\
    (detect_langs text = Ok [] -> code = UNKNOWN) /\
    (forall l rest,
       detect_langs text = Ok (l :: rest) ->
       code = upper ucd (lang l) /\
       (Spec.most_probable_first (l :: rest) ->
        forall l', In l' rest -> (prob l' <=? prob l)%float = true)).
Proof.
  rewrite detect_language_cases.
  destruct (detect_langs text) as [[|l rest]|e]; eexists; (split; [reflexivity|]).
  - split; [discriminate|]. split; [reflexivity|]. discriminate.
  - split; [discriminate|]. split; [discriminate|].
    intros l0 rest0 [= <- <-]. split; [reflexivity|].
    intros Hsorted l' Hin. apply StronglySorted_inv in Hsorted.
    destruct Hsorted as [_ Hall]. rewrite Forall_forall in Hall.
    exact (Hall l' Hin).
  - split; [intros; reflexivity|]. split; discriminate.
Qed.

Lemma detect_language_never_raises_witness :
  detect_language caseless Sample.detector (of_string "hello")
    = Ok (of_string "EN") /\
  detect_language caseless Sample.detector (of_string "12345") = Ok UNKNOWN.
Proof.
  destruct (detect_language_never_raises caseless Sample.detector
              (of_string "hello")) as (c1 & H1 & _ & _ & Hhead).
  destruct (Hhead _ _ eq_refl) as [Hc1 _].
  destruct (detect_language_never_raises caseless Sample.detector
              (of_string "12345")) as (c2 & H2 & Hraise & _).
  rewrite (Hraise _ eq_refl) in H2. rewrite Hc1 in H1.
  split; assumption.
Defined.

(** The detector on the adversarial inputs of the specification, with a
    library that raises when the text has no letter: the empty string,
    digits only, and one emoji (U+1F600). *)
Example detect_language_adversarial :
  detect_language caseless Sample.detector (of_string "") = Ok UNKNOWN /\
  detect_language caseless Sample.detector (of_string "12345") = Ok UNKNOWN /\
  detect_language caseless Sample.detector [0x1F600%N] = Ok UNKNOWN /\
  detect_language caseless Sample.detector (of_string "hello")
    = Ok (of_string "EN").
Proof. repeat split; reflexivity. Qed.

End DetectorProps.

(** * Properties of the text statistics *)

Module StatsProps.
Import Py App.

Lemma split_from_length (s tok : str) :
  List.length (split_from tok s) =
  Spec.token_starts (negb (Spec.in_token tok)) s
  + (if Spec.in_token tok then 1 else 0).
Proof.
  revert tok. induction s as [|c s IH]; intros tok; simpl.
  - destruct tok; reflexivity.
  - destruct (isspace c).
    + destruct tok; simpl; rewrite IH; simpl; lia.
    + rewrite IH. simpl. destruct tok; simpl; lia.
Qed.

Lemma split_from_concat (s tok : str) :
  List.concat (split_from tok s) = rev tok ++ filter Spec.nonspace s.
Proof.
  revert tok. induction s as [|c s IH]; intros tok; simpl.
  - destruct tok; simpl; now rewrite ?app_nil_r.
  - unfold Spec.nonspace at 1. destruct (isspace c); simpl.
    + destruct tok; simpl; now rewrite IH.
    + rewrite IH. simpl. now rewrite <- app_assoc.
Qed.

Lemma rev_token_ok (c : char) (tok : str) :
  forallb Spec.nonspace (c :: tok) = true -> Spec.token_ok (rev (c :: tok)).
Proof.
  intros H. split.
  - simpl. intros E. now apply app_eq_nil in E as [_ E].
  - rewrite forallb_forall in *. intros x Hx. apply H. now apply in_rev.
Qed.

Lemma split_from_tokens (s tok : str) :
  forallb Spec.nonspace tok = true -> Forall Spec.token_ok (split_from tok s).
Proof.
  revert tok. induction s as [|c s IH]; intros tok Htok; simpl.
  - destruct tok; constructor; [now apply rev_token_ok | constructor].
  - destruct (isspace c) eqn:Hc.
    + destruct tok; [now apply IH|].
      constructor; [now apply rev_token_ok | now apply IH].
    + apply IH. simpl. unfold Spec.nonspace at 1. now rewrite Hc.
Qed.

Example split_example :
  split (of_string "  Hello   World! ")
  = [of_string "Hello"; of_string "World!"] /\
  split (of_string "   ") = [] /\
  strip (of_string "  Hello World! ") = of_string "Hello World!" /\
  strip (of_string " ") = [].
Proof. repeat split; reflexivity. Qed.

Lemma is_special_spec (c : char) :
  is_special c = true <->
  In c [33; 63; 64; 35; 36; 37; 94; 38; 42]%N.
Proof.
  unfold is_special. rewrite existsb_exists. split.
  - intros (x & Hx & E). apply N.eqb_eq in E. now subst.
  - intros H. exists c. split; [exact H | apply N.eqb_refl].
Qed.

(** C8: the word count is the number of whitespace-separated tokens (the
    tokens being the non-empty whitespace-free pieces that make up the text
    once whitespace is removed), the character count is the length, Caps holds
    when some character is upper case, Special Chars when some character is
    one of [! ? @ # $ % ^ & *]; "Hello World!" has 2 words, 12 characters, an
    upper-case letter and a special character. *)
Theorem text_statistics (ucd : Unicode) (text : str) :
  word_count text = Spec.token_count text /\
  Forall Spec.token_ok (split text) /\
  List.concat (split text) = filter Spec.nonspace text /\
  char_count text = List.length text /\
  (has_caps ucd text = true <-> exists c, In c text /\ isupper ucd c = true) /\
  (has_special text = true <->
   exists c, In c text /\ In c [33; 63; 64; 35; 36; 37; 94; 38; 42]%N) /\
  word_count (of_string "Hello World!") = 2 /\
  char_count (of_string "Hello World!") = 12 /\
  has_caps ucd (of_string "Hello World!") = true /\
  has_special (of_string "Hello World!") = true.
Proof.
  split; [|split; [|split; [|split; [|split; [|split]]]]].
  - unfold word_count, split, Spec.token_count.
    rewrite split_from_length. simpl. lia.
  - apply split_from_tokens. reflexivity.
  - apply (split_from_concat text []).
  - reflexivity.
  - unfold has_caps. apply existsb_exists.
  - unfold has_special. rewrite existsb_exists.
    split; intros (c & Hin & Hc); exists c; split; trivial;
      now apply is_special_spec.
  - repeat split; reflexivity.
Qed.

Lemma text_statistics_witness :
  word_count (of_string "a  b c") = 3 /\
  has_special (of_string "a  b c") = false.
Proof.
  destruct (text_statistics caseless (of_string "a  b c"))
    as (Hwords & _ & _ & _ & _ & Hspecial & _).
  split; [rewrite Hwords; reflexivity|].
  destruct (has_special (of_string "a  b c")) eqn:E; [|reflexivity].
  destruct (proj1 Hspecial eq_refl) as (c & Hin & Hc).
  repeat (destruct Hin as [<- | Hin];
          [repeat (destruct Hc as [Hc | Hc]; [discriminate Hc|]);
           destruct Hc|]).
  destruct Hin.
Defined.

End StatsProps.

(** * Equations of the script monad *)

Module ScriptFacts.
Import Py App.

Lemma prepend_nil {A} (o : Out A) : prepend [] o = o.
Proof. now destruct o. Qed.

Lemma prepend_prepend {A} (evs1 evs2 : list Event) (o : Out A) :
  prepend evs1 (prepend evs2 o) = prepend (evs1 ++ evs2) o.
Proof. unfold prepend. cbn. now rewrite app_assoc. Qed.

Section Bind.
Context {A B : Type} (m : Script A) (k : A -> Script B) (w : World).

Lemma sbind_ok a w' evs :
  m w = {| res := Ok a; world := w'; events := evs |} ->
  sbind m k w = prepend evs (k a w').
Proof. unfold sbind, andThen. now intros ->. Qed.

Lemma sbind_raise e w' evs :
  m w = {| res := Raise e; world := w'; events := evs |} ->
  sbind m k w = {| res := Raise e; world := w'; events := evs |}.
Proof. unfold sbind, andThen. now intros ->. Qed.

End Bind.

Section Try.
Context {A : Type} (body : Script A) (handler : exn -> Script A) (w : World).

Lemma try_ok a w' evs :
  body w = {| res := Ok a; world := w'; events := evs |} ->
  try_except_Exception body handler w = body w.
Proof. unfold try_except_Exception. now intros ->. Qed.

Lemma try_caught e w' evs :
  body w = {| res := Raise e; world := w'; events := evs |} ->
  is_Exception e = true ->
  try_except_Exception body handler w = prepend evs (handler e w').
Proof. unfold try_except_Exception. intros -> H. cbn. now rewrite H. Qed.

Lemma try_passed e w' evs :
  body w = {| res := Raise e; world := w'; events := evs |} ->
  is_Exception e = false ->
  try_except_Exception body handler w = body w.
Proof. unfold try_except_Exception. intros -> H. cbn. now rewrite H. Qed.

End Try.

Section Steps.
Context {B : Type} (w : World).

Lemma show_bind el (k : unit -> Script B) :
  sbind (show el) k w = prepend [Shown el] (k tt w).
Proof. reflexivity. Qed.

Lemma emit_bind ev (k : unit -> Script B) :
  sbind (emit ev) k w = prepend [ev] (k tt w).
Proof. reflexivity. Qed.

Lemma ret_bind {A} (a : A) (k : A -> Script B) : sbind (ret a) k w = k a w.
Proof. apply (prepend_nil (k a w)). Qed.

Lemma lift_ok_bind {A} (a : A) (k : A -> Script B) :
  sbind (lift (Ok a)) k w = k a w.
Proof. apply (prepend_nil (k a w)). Qed.

Lemma lift_raise_bind {A} e (k : A -> Script B) :
  sbind (lift (Raise e)) k w = {| res := Raise e; world := w; events := [] |}.
Proof. reflexivity. Qed.

Lemma raise_bind {A} e (k : A -> Script B) :
  sbind (raise e) k w = {| res := Raise e; world := w; events := [] |}.
Proof. reflexivity. Qed.

Lemma set_cache_bind a (k : unit -> Script B) :
  sbind (set_cache a) k w = k tt {| cache := Some a; example := example w |}.
Proof. apply (prepend_nil (k tt _)). Qed.

Lemma set_example_bind s (k : unit -> Script B) :
  sbind (set_example s) k w = k tt {| cache := cache w; example := Some s |}.
Proof. apply (prepend_nil (k tt _)). Qed.

End Steps.

Section Runs.
Context {A : Type} (w : World).

Lemma prepend_mk evs (r : result A) w' es :
  prepend evs {| res := r; world := w'; events := es |} =
  {| res := r; world := w'; events := evs ++ es |}.
Proof. reflexivity. Qed.

Lemma show_run el :
  show el w = {| res := Ok tt; world := w; events := [Shown el] |}.
Proof. reflexivity. Qed.

Lemma emit_run ev :
  emit ev w = {| res := Ok tt; world := w; events := [ev] |}.
Proof. reflexivity. Qed.

Lemma ret_run (a : A) : ret a w = {| res := Ok a; world := w; events := [] |}.
Proof. reflexivity. Qed.

Lemma lift_run (r : result A) :
  lift r w = {| res := r; world := w; events := [] |}.
Proof. reflexivity. Qed.

Lemma raise_run e :
  @raise A e w = {| res := Raise e; world := w; events := [] |}.
Proof. reflexivity. Qed.

End Runs.

Create Rewrite HintDb script.

#[export] Hint Rewrite
  @show_bind @emit_bind @ret_bind @lift_ok_bind @lift_raise_bind
  @raise_bind @set_cache_bind @set_example_bind
  @prepend_mk show_run emit_run @ret_run @lift_run @raise_run : script.

(** Symbolic execution of a straight-line script: one statement after the
    other. *)
Ltac srun :=
  repeat (autorewrite with script; cbv beta iota);
  cbn [app fst snd cache example].

End ScriptFacts.

(** * Properties of the page script *)

Module PageProps.
Import Py App ScriptFacts.

(** ** Whitespace stripping *)

Lemma lstrip_blank (s : str) : Spec.blank s = true -> lstrip s = [].
Proof.
  induction s as [|c s IH]; simpl; [reflexivity|].
  destruct (isspace c); simpl; [exact IH | discriminate].
Qed.

Lemma lstrip_nil_blank (s : str) : lstrip s = [] -> Spec.blank s = true.
Proof.
  induction s as [|c s IH]; simpl; [reflexivity|].
  destruct (isspace c); simpl; [exact IH | discriminate].
Qed.

Lemma blank_rev (s : str) : Spec.blank (rev s) = Spec.blank s.
Proof.
  unfold Spec.blank. induction s as [|c s IH]; simpl; [reflexivity|].
  rewrite forallb_app, IH. simpl. rewrite andb_true_r. apply andb_comm.
Qed.

Lemma lstrip_head (s : str) :
  match lstrip s with
  | [] => Spec.blank s = true
  | c :: _ => isspace c = false
  end.
Proof.
  induction s as [|c s IH]; simpl; [reflexivity|].
  destruct (isspace c) eqn:Hc; simpl; [exact IH | exact Hc].
Qed.

(** The guard [text_input.strip()] is false exactly on blank texts. *)
Lemma strip_nil_iff (s : str) : strip s = [] <-> Spec.blank s = true.
Proof.
  unfold strip, rstrip. split.
  - intros H.
    assert (H1 : rev (rev (lstrip (rev (lstrip s)))) = rev []) by now rewrite H.
    rewrite rev_involutive in H1. simpl in H1.
    apply lstrip_nil_blank in H1. rewrite blank_rev in H1.
    pose proof (lstrip_head s) as Hh.
    destruct (lstrip s) as [|c t]; [exact Hh|].
    simpl in H1. rewrite Hh in H1. discriminate.
  - intros H. now rewrite (lstrip_blank s H).
Qed.

Lemma truthy_strip (s : str) : truthy (strip s) = negb (Spec.blank s).
Proof.
  destruct (Spec.blank s) eqn:Hb.
  - apply strip_nil_iff in Hb. now rewrite Hb.
  - destruct (strip s) eqn:Hs; [|reflexivity].
    apply strip_nil_iff in Hs. congruence.
Qed.

(** ** The blocks of the script, one at a time *)

Lemma load_model_ok (env : Env) (w : World) (m vz : Artifact) :
  joblib_load env (model_path env) = Ok m ->
  joblib_load env (vectorizer_path env) = Ok vz ->
  load_model env w =
  {| res := Ok (m, vz);
     world := w;
     events :=
       [Shown (SidebarWrite (BaseDirIs (BASE_DIR env)));
        Shown (SidebarWrite (ModelPathExists (path_exists env (model_path env))));
        Shown (SidebarWrite (LookingForModelAt (model_path env)))] |}.
Proof.
  intros Hm Hv. unfold load_model.
  erewrite try_ok; rewrite Hm, Hv; srun; reflexivity.
Qed.

Lemma cache_resource_hit (f : Script (Artifact * Artifact)) w a :
  cache w = Some a -> cache_resource f w = ret a w.
Proof. unfold cache_resource. now intros ->. Qed.

Lemma cache_resource_miss_ok (f : Script (Artifact * Artifact)) w a w' evs :
  cache w = None ->
  f w = {| res := Ok a; world := w'; events := evs |} ->
  cache_resource f w =
  {| res := Ok a;
     world := {| cache := Some a; example := example w' |};
     events := evs |}.
Proof.
  unfold cache_resource. intros -> Hf. rewrite (sbind_ok _ _ _ _ _ _ Hf).
  srun. now rewrite app_nil_r.
Qed.

Lemma cache_resource_miss_raise (f : Script (Artifact * Artifact)) w e w' evs :
  cache w = None ->
  f w = {| res := Raise e; world := w'; events := evs |} ->
  cache_resource f w = {| res := Raise e; world := w'; events := evs |}.
Proof.
  unfold cache_resource. intros -> Hf. now rewrite (sbind_raise _ _ _ _ _ _ Hf).
Qed.

Lemma load_model_fail (env : Env) (w : World) :
  Spec.load_fails env ->
  exists e evs,
    load_model env w = {| res := Raise e; world := w; events := evs |} /\
    Spec.Quiet evs.
Proof.
  intros Hfail.
  assert (Hbody : exists e,
    (show (SidebarWrite (BaseDirIs (BASE_DIR env))) ;;
     show (SidebarWrite (ModelPathExists (path_exists env (model_path env)))) ;;
     show (SidebarWrite (LookingForModelAt (model_path env))) ;;
     model <- lift (joblib_load env (model_path env)) ;;
     vectorizer <- lift (joblib_load env (vectorizer_path env)) ;;
     ret (model, vectorizer))%script w =
    {| res := Raise e; world := w;
       events :=
         [Shown (SidebarWrite (BaseDirIs (BASE_DIR env)));
          Shown (SidebarWrite
                   (ModelPathExists (path_exists env (model_path env))));
          Shown (SidebarWrite (LookingForModelAt (model_path env)))] |}).
  { destruct (joblib_load env (model_path env)) as [m|e1] eqn:Hm.
    - destruct Hfail as [[e He] | [e He]]; [congruence|].
      exists e. rewrite He. srun. reflexivity.
    - exists e1. srun. reflexivity. }
  destruct Hbody as [e Hbody]. unfold load_model.
  destruct (is_Exception e) eqn:He.
  - rewrite (try_caught _ _ _ _ _ _ Hbody He).
    destruct (path_exists env (BASE_DIR env));
      [destruct (iterdir env (BASE_DIR env)) as [l|e']|];
      cbn [bind]; srun; eexists; eexists; (split; [reflexivity|]);
      repeat constructor.
  - rewrite (try_passed _ _ _ _ _ _ Hbody He), Hbody.
    eexists; eexists. split; [reflexivity|]. repeat constructor.
Qed.

Lemma startup_hit (env : Env) (w : World) (a : Artifact * Artifact) :
  cache w = Some a ->
  startup env w = {| res := Ok a; world := w; events := [Shown StSuccess] |}.
Proof.
  intros Hc. unfold startup.
  assert (Hbody :
    (a <- cache_resource (load_model env) ;; show StSuccess ;; ret a)%script w
    = {| res := Ok a; world := w; events := [Shown StSuccess] |}).
  { rewrite (sbind_ok _ _ _ a w [] (cache_resource_hit _ _ _ Hc)).
    srun. reflexivity. }
  now rewrite (try_ok _ _ _ _ _ _ Hbody).
Qed.

Lemma startup_loaded (env : Env) (w : World) (m vz : Artifact) :
  cache w = None ->
  joblib_load env (model_path env) = Ok m ->
  joblib_load env (vectorizer_path env) = Ok vz ->
  startup env w =
  {| res := Ok (m, vz);
     world := {| cache := Some (m, vz); example := example w |};
     events :=
       [Shown (SidebarWrite (BaseDirIs (BASE_DIR env)));
        Shown (SidebarWrite (ModelPathExists (path_exists env (model_path env))));
        Shown (SidebarWrite (LookingForModelAt (model_path env)));
        Shown StSuccess] |}.
Proof.
  intros Hc Hm Hv. unfold startup.
  pose proof (cache_resource_miss_ok _ _ _ _ _ Hc (load_model_ok env w m vz Hm Hv))
    as Hcached.
  erewrite try_ok; rewrite (sbind_ok _ _ _ _ _ _ Hcached); srun; reflexivity.
Qed.

Lemma startup_fail (env : Env) (w : World) :
  cache w = None ->
  Spec.load_fails env ->
  exists e evs,
    startup env w = {| res := Raise e; world := w; events := evs |} /\
    Spec.Quiet evs /\
    (e = StopException \/ is_Exception e = false).
Proof.
  intros Hc Hfail.
  destruct (load_model_fail env w Hfail) as (e & evs & Hload & Hq).
  assert (Hbody :
    (a <- cache_resource (load_model env) ;; show StSuccess ;; ret a)%script w
    = {| res := Raise e; world := w; events := evs |}).
  { now rewrite (sbind_raise _ _ _ _ _ _
                   (cache_resource_miss_raise _ _ _ _ _ Hc Hload)). }
  unfold startup. destruct (is_Exception e) eqn:He.
  - rewrite (try_caught _ _ _ _ _ _ Hbody He). srun.
    eexists; eexists. split; [reflexivity|]. split; [|now left].
    apply Forall_app. split; [exact Hq | repeat constructor].
  - rewrite (try_passed _ _ _ _ _ _ Hbody He), Hbody.
    eexists; eexists. split; [reflexivity|]. split; [exact Hq | now right].
Qed.

Lemma sidebar_ok (inp : Inputs) (vz : Artifact) (w : World) (n : nat) :
  vocabulary_len vz = Ok n ->
  exists w' evs,
    sidebar inp vz w = {| res := Ok tt; world := w'; events := evs |} /\
    cache w' = cache w /\ Spec.Quiet evs.
Proof.
  intros Hn. unfold sidebar, when. rewrite Hn.
  destruct (example1_btn inp), (example2_btn inp), (example3_btn inp);
    srun; eexists; eexists; (split; [reflexivity|]);
    (split; [reflexivity | repeat constructor]).
Qed.

Lemma sidebar_raise (inp : Inputs) (vz : Artifact) (w : World) (e : exn) :
  vocabulary_len vz = Raise e ->
  sidebar inp vz w =
  {| res := Raise e; world := w;
     events := [Shown (SidebarHeader "About"); Shown AboutText;
                Shown (SidebarHeader "Model Info")] |}.
Proof. intros He. unfold sidebar. rewrite He. srun. reflexivity. Qed.

Lemma clear_action_cases (inp : Inputs) (w : World) :
  clear_action inp w =
  if clear_btn inp
  then {| res := Raise RerunException;
          world := {| cache := cache w; example := Some [] |};
          events := [] |}
  else {| res := Ok tt; world := w; events := [] |}.
Proof.
  unfold clear_action, when. destruct (clear_btn inp); srun; reflexivity.
Qed.

(** The analysis block does what [Spec.analysis_outcome] says, for the
    language the detector returns. *)
Lemma analysis_run (env : Env) (text : str) (m vz : Artifact) (w : World) :
  exists lang,
    detect_language (ucd env) (detect_langs env) text = Ok lang /\
    analysis env text m vz w =
    Spec.analysis_outcome (ucd env) text lang (analyze_text text m vz) w.
Proof.
  destruct (DetectorProps.detect_language_total (ucd env) (detect_langs env) text)
    as [lang Hlang].
  exists lang. split; [exact Hlang|].
  unfold analysis, Spec.analysis_outcome. rewrite Hlang.
  destruct (analyze_text text m vz) as [v|e]; [|srun; reflexivity].
  repeat (autorewrite with script; cbv beta iota).
  unfold st_progress.
  destruct ((0 <=? confidence v)%float && (confidence v <=? 1)%float);
    srun; reflexivity.
Qed.

(** ** Properties that every statement of a sequence preserves *)

Lemma Quiet_no_call evs : Spec.Quiet evs -> forall c, ~ In (Called c) evs.
Proof.
  unfold Spec.Quiet. rewrite Forall_forall. intros H c Hin.
  specialize (H _ Hin). discriminate.
Qed.

Lemma Quiet_no_result evs :
  Spec.Quiet evs -> forall b, ~ In (Shown (ResultBox b)) evs.
Proof.
  unfold Spec.Quiet. rewrite Forall_forall. intros H b Hin.
  specialize (H _ Hin). discriminate.
Qed.

Section Sequence.
Context {A B : Type} (m : Script A) (k : A -> Script B) (w : World).

Lemma Quiet_sbind :
  Spec.Quiet (events (m w)) ->
  (forall a w', Spec.Quiet (events (k a w'))) ->
  Spec.Quiet (events (sbind m k w)).
Proof.
  intros Hm Hk. unfold sbind, andThen.
  destruct (res (m w)); [|exact Hm].
  apply Forall_app. split; [exact Hm | apply Hk].
Qed.

Lemma Warned_later :
  (forall a w', Spec.Warned (k a w')) -> Spec.Warned (sbind m k w).
Proof.
  intros Hk. unfold sbind, andThen.
  destruct (res (m w)) as [a|e]; [|right; now exists e].
  destruct (Hk a (world (m w))) as [Hin | Hraise]; [left|right; exact Hraise].
  cbn. apply in_or_app. now right.
Qed.

Lemma Warned_now :
  In (Shown StWarning) (events (m w)) -> Spec.Warned (sbind m k w).
Proof.
  intros Hin. unfold sbind, andThen.
  destruct (res (m w)) as [a|e]; [left|right; now exists e].
  cbn. apply in_or_app. now left.
Qed.

End Sequence.

Lemma same_but_language_refl {A} (o : Out A) : Spec.same_but_language o o.
Proof. repeat split. Qed.

Lemma same_but_language_sbind {A B}
    (m1 m2 : Script A) (k1 k2 : A -> Script B) (w : World) :
  Spec.same_but_language (m1 w) (m2 w) ->
  (forall a w', Spec.same_but_language (k1 a w') (k2 a w')) ->
  Spec.same_but_language (sbind m1 k1 w) (sbind m2 k2 w).
Proof.
  intros (Hr & Hw & He) Hk. unfold sbind, andThen.
  rewrite <- Hr, <- Hw.
  destruct (res (m1 w)) as [a|e]; [|repeat split; assumption].
  destruct (Hk a (world (m1 w))) as (Hr' & Hw' & He').
  repeat split; cbn; try assumption.
  unfold Spec.without_language in *. rewrite !filter_app. congruence.
Qed.

(** ** Quiet blocks *)

Lemma startup_quiet (env : Env) (w : World) :
  Spec.Quiet (events (startup env w)).
Proof.
  destruct (cache w) as [a|] eqn:Hc.
  - rewrite (startup_hit env w a Hc). repeat constructor.
  - destruct (joblib_load env (model_path env)) as [m|e] eqn:Hm.
    + destruct (joblib_load env (vectorizer_path env)) as [vz|e] eqn:Hv.
      * rewrite (startup_loaded env w m vz Hc Hm Hv). repeat constructor.
      * destruct (startup_fail env w Hc) as (e' & evs & -> & Hq & _);
          [right; now exists e | exact Hq].
    + destruct (startup_fail env w Hc) as (e' & evs & -> & Hq & _);
        [left; now exists e | exact Hq].
Qed.

Lemma sidebar_quiet (inp : Inputs) (vz : Artifact) (w : World) :
  Spec.Quiet (events (sidebar inp vz w)).
Proof.
  destruct (vocabulary_len vz) as [n|e] eqn:Hn.
  - now destruct (sidebar_ok inp vz w n Hn) as (w' & evs & -> & _ & Hq).
  - rewrite (sidebar_raise inp vz w e Hn). repeat constructor.
Qed.

Lemma clear_action_quiet (inp : Inputs) (w : World) :
  Spec.Quiet (events (clear_action inp w)).
Proof.
  rewrite clear_action_cases. destruct (clear_btn inp); constructor.
Qed.

Lemma analyze_action_blank
    (env : Env) (inp : Inputs) (m vz : Artifact) (w : World) :
  analyze_btn inp = true ->
  Spec.blank (text_input inp) = true ->
  analyze_action env inp m vz w = show StWarning w.
Proof.
  intros Hb Hblank. unfold analyze_action.
  now rewrite truthy_strip, Hblank, Hb.
Qed.

(** ** The guard on blank input *)

Lemma script_blank_quiet (env : Env) (inp : Inputs) (w : World) :
  analyze_btn inp = true ->
  Spec.blank (text_input inp) = true ->
  Spec.Quiet (events (script env inp w)).
Proof.
  intros Hb Hblank. unfold script, page.
  do 4 (apply Quiet_sbind; [repeat constructor | intros ? ?]).
  apply Quiet_sbind; [apply startup_quiet | intros arts w1].
  apply Quiet_sbind; [apply sidebar_quiet | intros ? ?].
  apply Quiet_sbind; [repeat constructor | intros ? ?].
  apply Quiet_sbind; [apply clear_action_quiet | intros ? ?].
  apply Quiet_sbind;
    [rewrite (analyze_action_blank _ _ _ _ _ Hb Hblank) | intros ? ?];
    repeat constructor.
Qed.

Lemma script_blank_warned (env : Env) (inp : Inputs) (w : World) :
  analyze_btn inp = true ->
  Spec.blank (text_input inp) = true ->
  Spec.Warned (script env inp w).
Proof.
  intros Hb Hblank. unfold script, page.
  do 8 (apply Warned_later; intros ? ?).
  apply Warned_now. rewrite (analyze_action_blank _ _ _ _ _ Hb Hblank).
  now left.
Qed.

(** C9: when the analyze button is pressed on a text that is empty or all
    whitespace, the run reaches neither the language detector nor the scorer
    and shows no result; a run that gets to its end has shown the
    empty-input warning instead. *)
Theorem blank_input_not_analysed (env : Env) (inp : Inputs) (w : World) :
  analyze_btn inp = true ->
  Spec.blank (text_input inp) = true ->
  let o := script env inp w in
  (forall c, ~ In (Called c) (events o)) /\
  (forall b, ~ In (Shown (ResultBox b)) (events o)) /\
  (res o = Ok tt -> In (Shown StWarning) (events o)).
Proof.
  intros Hb Hblank o.
  pose proof (script_blank_quiet env inp w Hb Hblank) as Hq.
  split; [now apply Quiet_no_call|]. split; [now apply Quiet_no_result|].
  intros Hres. destruct (script_blank_warned env inp w Hb Hblank) as [H|[e H]].
  - exact H.
  - fold o in H. congruence.
Qed.

Lemma blank_input_not_analysed_witness :
  let o := script (Sample.env 0.9 1) (Sample.request "  ") Sample.fresh in
  res o = Ok tt /\
  In (Shown StWarning) (events o) /\
  forall c, ~ In (Called c) (events o).
Proof.
  pose proof (blank_input_not_analysed
                (Sample.env 0.9 1) (Sample.request "  ") Sample.fresh
                eq_refl eq_refl) as (Hcall & _ & Hwarn).
  split; [reflexivity|]. split; [apply Hwarn; reflexivity | exact Hcall].
Defined.

(** ** Failure to load *)

(** C4: when loading the classifier or the vectorizer fails, [load_model]
    raises (it returns no artifact), and the run of the script ends there:
    in [st.stop()] when the failure is an [Exception], in the failure itself
    otherwise.  Nothing is cached, and neither the detector nor the scorer is
    reached nor any result shown. *)
Theorem load_failure_halts (env : Env) (inp : Inputs) (w : World) :
  cache w = None ->
  Spec.load_fails env ->
  (exists e, res (load_model env w) = Raise e) /\
  let o := script env inp w in
  (exists e, res o = Raise e /\
             (e = StopException \/ is_Exception e = false)) /\
  world o = w /\
  (forall c, ~ In (Called c) (events o)) /\
  (forall b, ~ In (Shown (ResultBox b)) (events o)).
Proof.
  intros Hc Hfail. split.
  - destruct (load_model_fail env w Hfail) as (e & evs & -> & _). now exists e.
  - destruct (startup_fail env w Hc Hfail) as (e & evs & Hs & Hq & He).
    cbv zeta. unfold script. srun.
    rewrite (sbind_raise _ _ _ _ _ _ Hs). srun.
    assert (Hq' : Spec.Quiet (Shown PageConfig :: Shown Css :: Shown Title
                              :: Shown Subtitle :: evs))
      by (repeat (constructor; [reflexivity|]); exact Hq).
    split; [exists e; split; [reflexivity | exact He]|].
    split; [reflexivity|].
    split; [now apply Quiet_no_call | now apply Quiet_no_result].
Qed.

Lemma load_failure_halts_witness :
  let o := script (Sample.env_with Sample.files_no_vectorizer)
             (Sample.request "Hello World!") Sample.fresh in
  res o = Raise StopException /\
  cache (world o) = None /\
  forall c, ~ In (Called c) (events o).
Proof.
  pose proof (load_failure_halts
                (Sample.env_with Sample.files_no_vectorizer)
                (Sample.request "Hello World!") Sample.fresh eq_refl
                (or_intror (ex_intro _ (Exception "FileNotFoundError") eq_refl)))
    as (_ & _ & _ & Hcall & _).
  split; [reflexivity|]. split; [reflexivity | exact Hcall].
Defined.

(** ** The language guess is for display only *)

Lemma analysis_same_but_language
    (env : Env) (dl1 dl2 : str -> result (list Language))
    (text : str) (m vz : Artifact) (w : World) :
  Spec.same_but_language
    (analysis (Spec.with_detector env dl1) text m vz w)
    (analysis (Spec.with_detector env dl2) text m vz w).
Proof.
  destruct (analysis_run (Spec.with_detector env dl1) text m vz w)
    as (lang1 & _ & ->).
  destruct (analysis_run (Spec.with_detector env dl2) text m vz w)
    as (lang2 & _ & ->).
  unfold Spec.analysis_outcome. cbn [ucd Spec.with_detector].
  destruct (analyze_text text m vz) as [v|e]; [|apply same_but_language_refl].
  cbv zeta.
  destruct ((0 <=? confidence v)%float && (confidence v <=? 1)%float);
    repeat split.
Qed.

Lemma script_same_but_language
    (env : Env) (dl1 dl2 : str -> result (list Language))
    (inp : Inputs) (w : World) :
  Spec.same_but_language
    (script (Spec.with_detector env dl1) inp w)
    (script (Spec.with_detector env dl2) inp w).
Proof.
  unfold script, page.
  do 4 (apply same_but_language_sbind;
        [apply same_but_language_refl | intros ? ?]).
  apply same_but_language_sbind;
    [apply (same_but_language_refl (startup env _)) | intros arts w1].
  do 3 (apply same_but_language_sbind;
        [apply same_but_language_refl | intros ? ?]).
  apply same_but_language_sbind;
    [|intros ? ?; apply same_but_language_refl].
  unfold analyze_action.
  destruct (analyze_btn inp && truthy (strip (text_input inp))).
  - apply analysis_same_but_language.
  - apply same_but_language_refl.
Qed.

(** C5: the language guess never influences the verdict.  Two runs on the
    same inputs, artifacts and state, whose language detectors behave in any
    two ways, end alike, leave the same state and render the same elements
    but for the "Language" metric; and what the analysis block shows of the
    verdict is what the scorer returns for the text and the artifacts. *)
Theorem language_never_influences_verdict
    (env : Env) (dl1 dl2 : str -> result (list Language))
    (inp : Inputs) (w : World) :
  let o1 := script (Spec.with_detector env dl1) inp w in
  let o2 := script (Spec.with_detector env dl2) inp w in
  (res o1 = res o2 /\ world o1 = world o2 /\
   Spec.without_language (events o1) = Spec.without_language (events o2)) /\
  (forall text m vz w' v,
     analyze_text text m vz = Ok v ->
     forall dl,
     exists lang,
       firstn 9 (events (analysis (Spec.with_detector env dl) text m vz w')) =
       Called (DetectLanguage text) :: Called (AnalyzeText text)
       :: Spec.shown_verdict lang v).
Proof.
  split; [apply script_same_but_language|].
  intros text m vz w' v Hv dl.
  destruct (analysis_run (Spec.with_detector env dl) text m vz w')
    as (lang & _ & ->).
  exists lang. rewrite Hv. unfold Spec.analysis_outcome. cbv zeta.
  now destruct ((0 <=? confidence v)%float && (confidence v <=? 1)%float).
Qed.

Lemma language_never_influences_verdict_witness :
  let silent := fun _ : str => Raise (Exception "LangDetectException") in
  let o1 := script (Spec.with_detector (Sample.env 0.9 1) Sample.detector)
              (Sample.request "Hello World!") Sample.fresh in
  let o2 := script (Spec.with_detector (Sample.env 0.9 1) silent)
              (Sample.request "Hello World!") Sample.fresh in
  res o1 = res o2 /\
  Spec.without_language (events o1) = Spec.without_language (events o2).
Proof.
  cbv zeta.
  destruct (language_never_influences_verdict (Sample.env 0.9 1)
              Sample.detector
              (fun _ => Raise (Exception "LangDetectException"))
              (Sample.request "Hello World!") Sample.fresh)
    as ((Hres & _ & Hev) & _).
  split; assumption.
Defined.

(** ** A request that reaches the scorer *)

Lemma underlying_failure_raises (text : str) (model vz : Artifact) (e : exn) :
  Spec.underlying_failure text model vz e ->
  analyze_text text model vz = Raise e.
Proof.
  unfold analyze_text, getitem, bind.
  intros [Ht | (X & Ht & [Hp | (P & row & p & Hp & Hrow & Hprob & Hl)])];
    rewrite Ht; [reflexivity|..]; rewrite Hp; [reflexivity|].
  now rewrite Hrow, Hprob, Hl.
Qed.

(** With the artifacts cached, the vocabulary readable, and the analyze
    button pressed on a text that is not blank, the run is the analysis of
    that text followed by the footer. *)
Lemma script_analysed
    (env : Env) (inp : Inputs) (w : World) (m vz : Artifact) (n : nat) :
  cache w = Some (m, vz) ->
  vocabulary_len vz = Ok n ->
  clear_btn inp = false ->
  analyze_btn inp = true ->
  Spec.blank (text_input inp) = false ->
  exists w1 evs lang,
    cache w1 = cache w /\
    script env inp w =
    prepend evs
      (Spec.then_footer
         (Spec.analysis_outcome (ucd env) (text_input inp) lang
            (analyze_text (text_input inp) m vz) w1)).
Proof.
  intros Hc Hn Hclear Hb Hblank.
  destruct (sidebar_ok inp vz w n Hn) as (w1 & evs1 & Hside & Hc1 & _).
  destruct (analysis_run env (text_input inp) m vz w1) as (lang & _ & Hrun).
  exists w1. eexists. exists lang. split; [exact Hc1|].
  unfold script. srun.
  rewrite (sbind_ok _ _ _ _ _ _ (startup_hit env w _ Hc)).
  cbn [fst snd]. unfold page.
  rewrite (sbind_ok _ _ _ _ _ _ Hside). srun.
  assert (Hcl : clear_action inp w1
                = {| res := Ok tt; world := w1; events := [] |})
    by now rewrite clear_action_cases, Hclear.
  rewrite (sbind_ok _ _ _ _ _ _ Hcl), prepend_nil.
  unfold analyze_action. rewrite truthy_strip, Hblank, Hb. cbn [andb negb].
  unfold sbind at 1. rewrite Hrun.
  rewrite !prepend_prepend. reflexivity.
Qed.

(** C6: a failure of the vectorizer's transform or of the model's
    [predict_proba] or [predict] on a text comes out of the scorer, and out of
    the run that analyses the text, as that same exception; the cached
    artifacts are as before, and a later request whose text the artifacts
    accept is scored and its result shown. *)
Theorem scoring_failure_propagates
    (env : Env) (inp : Inputs) (w : World) (model vz : Artifact)
    (n : nat) (e : exn) :
  cache w = Some (model, vz) ->
  vocabulary_len vz = Ok n ->
  clear_btn inp = false ->
  analyze_btn inp = true ->
  Spec.blank (text_input inp) = false ->
  Spec.underlying_failure (text_input inp) model vz e ->
  analyze_text (text_input inp) model vz = Raise e /\
  let o := script env inp w in
  res o = Raise e /\
  cache (world o) = Some (model, vz) /\
  forall inp' v,
    clear_btn inp' = false ->
    analyze_btn inp' = true ->
    Spec.blank (text_input inp') = false ->
    analyze_text (text_input inp') model vz = Ok v ->
    In (Shown (ResultBox (main_box v))) (events (script env inp' (world o))).
Proof.
  intros Hc Hn Hclear Hb Hblank Hfail.
  pose proof (underlying_failure_raises _ _ _ _ Hfail) as Hraise.
  split; [exact Hraise|]. cbv zeta.
  destruct (script_analysed env inp w model vz n Hc Hn Hclear Hb Hblank)
    as (w1 & evs & lang & Hc1 & ->).
  rewrite Hraise.
  change (world (prepend evs _)) with w1.
  split; [reflexivity|]. split; [congruence|].
  intros inp' v Hclear' Hb' Hblank' Hv.
  assert (Hc1' : cache w1 = Some (model, vz)) by congruence.
  destruct (script_analysed env inp' w1 model vz n Hc1' Hn Hclear' Hb' Hblank')
    as (w2 & evs' & lang' & _ & ->).
  rewrite Hv. cbn [prepend events]. apply in_or_app. right.
  unfold Spec.analysis_outcome, Spec.then_footer. cbv zeta.
  destruct ((0 <=? confidence v)%float && (confidence v <=? 1)%float);
    cbn; tauto.
Qed.

Lemma scoring_failure_propagates_witness :
  let w := Sample.loaded 0.9 1 in
  let bad := {| text_input := [0%N]; analyze_btn := true; clear_btn := false;
                example1_btn := false; example2_btn := false;
                example3_btn := false |} in
  let o := script (Sample.env 0.9 1) bad w in
  res o = Raise (Exception "ValueError") /\
  cache (world o) = cache w /\
  In (Shown (ResultBox (ToxicBox HIGH)))
     (events (script (Sample.env 0.9 1) (Sample.request "hi") (world o))).
Proof.
  cbv zeta.
  pose proof (scoring_failure_propagates (Sample.env 0.9 1)
                {| text_input := [0%N]; analyze_btn := true;
                   clear_btn := false; example1_btn := false;
                   example2_btn := false; example3_btn := false |}
                (Sample.loaded 0.9 1)
                (Sample.classifier 0.9 1) Sample.vectorizer 1
                (Exception "ValueError")
                eq_refl eq_refl eq_refl eq_refl eq_refl
                (or_introl eq_refl))
    as (_ & Hres & Hcache & Hnext).
  split; [exact Hres|]. split; [exact Hcache|].
  exact (Hnext (Sample.request "hi") _ eq_refl eq_refl eq_refl eq_refl).
Defined.

(** Two detectors that disagree on every text, and the runs they give. *)
Example language_shown_differs_verdict_same :
  let silent := fun _ : str => Raise (Exception "LangDetectException") in
  let o1 := script (Spec.with_detector (Sample.env 0.9 1) Sample.detector)
              (Sample.request "Hello World!") Sample.fresh in
  let o2 := script (Spec.with_detector (Sample.env 0.9 1) silent)
              (Sample.request "Hello World!") Sample.fresh in
  In (Shown (Metric "Language" (MText (of_string "EN")))) (events o1) /\
  In (Shown (Metric "Language" (MText UNKNOWN))) (events o2) /\
  In (Shown (ResultBox (ToxicBox HIGH))) (events o1) /\
  In (Shown (ResultBox (ToxicBox HIGH))) (events o2) /\
  Spec.without_language (events o1) = Spec.without_language (events o2).
Proof.
  vm_compute.
  repeat match goal with |- _ /\ _ => split end; try reflexivity; tauto.
Qed.

(** ** The main result box *)

(** C10: the main result box is the safe box exactly when [is_toxic] is
    false, whatever the severity; the toxic box is chosen exactly for a toxic
    verdict of severity HIGH and the warning box for a toxic verdict of any
    other severity.  The analysis block shows that box, and the scorer does
    return non-toxic verdicts of severity MEDIUM and HIGH, which get the safe
    box. *)
Theorem safe_box_whatever_severity :
  (forall v : Verdict,
     (main_box v = SafeBox <-> is_toxic v = false) /\
     (forall s, main_box v = ToxicBox s <->
                is_toxic v = true /\ severity v = HIGH /\ s = HIGH) /\
     (forall s, main_box v = WarningBox s <->
                is_toxic v = true /\ severity v = s /\ s <> HIGH)) /\
  (forall env text m vz w v,
     analyze_text text m vz = Ok v ->
     In (Shown (ResultBox (main_box v))) (events (analysis env text m vz w))) /\
  (exists text m vz v,
     analyze_text text m vz = Ok v /\
     is_toxic v = false /\ severity v = MEDIUM /\ main_box v = SafeBox) /\
  (exists text m vz v,
     analyze_text text m vz = Ok v /\
     is_toxic v = false /\ severity v = HIGH /\ main_box v = SafeBox).
Proof.
  split; [|split; [|split]].
  - intros [toxic conf sev]. unfold main_box. cbn [is_toxic severity].
    destruct toxic, sev; cbn; repeat split;
      try discriminate; try congruence; try tauto;
      try (intros [= <-]; repeat split; congruence);
      try (intros (_ & H1 & H2); congruence);
      try (intros (H & _); discriminate).
  - intros env text m vz w v Hv.
    destruct (analysis_run env text m vz w) as (lang & _ & ->).
    rewrite Hv. unfold Spec.analysis_outcome. cbv zeta.
    destruct ((0 <=? confidence v)%float && (confidence v <=? 1)%float);
      cbn; tauto.
  - exists (of_string "hi"), (Sample.classifier 0.75 0), Sample.vectorizer.
    eexists. split; [reflexivity|]. repeat split.
  - exists (of_string "hi"), (Sample.classifier 0.9 0), Sample.vectorizer.
    eexists. split; [reflexivity|]. repeat split.
Qed.

Lemma safe_box_whatever_severity_witness :
  main_box {| is_toxic := false; confidence := 0.9; severity := HIGH |}
  = SafeBox.
Proof.
  apply (proj1 safe_box_whatever_severity
           {| is_toxic := false; confidence := 0.9; severity := HIGH |}).
  reflexivity.
Defined.

End PageProps.

(** * More on binary64 comparison *)

Module F64Order.
Local Open Scope float_scope.

Lemma lexcmp_spec e1 m1 e2 m2 :
  match Spec.lexcmp e1 m1 e2 m2 with
  | Lt => (e1 < e2)%Z \/ (e1 = e2 /\ (m1 < m2)%positive)
  | Eq => e1 = e2 /\ m1 = m2
  | Gt => (e2 < e1)%Z \/ (e1 = e2 /\ (m2 < m1)%positive)
  end.
Proof.
  unfold Spec.lexcmp. destruct (Z.compare_spec e1 e2); auto.
  change (Pos.compare_cont Eq m1 m2) with (Pos.compare m1 m2).
  destruct (Pos.compare_spec m1 m2); auto.
Qed.

Lemma SFcompare_finite s1 m1 e1 s2 m2 e2 :
  SFcompare (S754_finite s1 m1 e1) (S754_finite s2 m2 e2) =
  Some (if s1 then if s2 then CompOpp (Spec.lexcmp e1 m1 e2 m2) else Lt
        else if s2 then Gt else Spec.lexcmp e1 m1 e2 m2).
Proof.
  unfold SFcompare, Spec.lexcmp. destruct s1, s2; try reflexivity.
  now destruct (e1 ?= e2)%Z.
Qed.

Lemma SFltb_leb_trans (x y z : spec_float) :
  SFltb x y = true -> SFleb y z = true -> SFltb x z = true.
Proof.
  unfold SFltb, SFleb.
  destruct x as [sx|sx| |sx mx ex], y as [sy|sy| |sy my ey],
    z as [sz|sz| |sz mz ez];
    rewrite ?SFcompare_finite;
    try (unfold SFcompare;
         try destruct sx; try destruct sy; try destruct sz;
         (discriminate || reflexivity || (intros; discriminate))).
  pose proof (lexcmp_spec ex mx ey my) as H1;
  pose proof (lexcmp_spec ey my ez mz) as H2;
  pose proof (lexcmp_spec ex mx ez mz) as H3.
  destruct sx, sy, sz; try discriminate; try reflexivity;
    try (intros; discriminate);
    destruct (Spec.lexcmp ex mx ey my); try discriminate;
    destruct (Spec.lexcmp ey my ez mz); try discriminate;
    destruct (Spec.lexcmp ex mx ez mz); try reflexivity;
    simpl; try (intros; discriminate); intros _ _; exfalso; lia.
Qed.

(** [c < p] and [p <= q] give [c < q]. *)
Lemma ltb_leb_trans (c p q : float) :
  (c <? p) = true -> (p <=? q) = true -> (c <? q) = true.
Proof. rewrite !ltb_spec, leb_spec. apply SFltb_leb_trans. Qed.

End F64Order.

(** * More on the scorer *)

Module ScorerExtra.
Import Py App.
Local Open Scope float_scope.

Lemma severity_of_monotone (p q : float) :
  (p <=? q) = true ->
  Spec.Severity_rank (severity_of p) <= Spec.Severity_rank (severity_of q).
Proof.
  intros Hpq. unfold severity_of.
  destruct (0.8 <? p) eqn:H8.
  - now rewrite (F64Order.ltb_leb_trans _ _ _ H8 Hpq).
  - destruct (0.5 <? p) eqn:H5; [|simpl; lia].
    rewrite (F64Order.ltb_leb_trans _ _ _ H5 Hpq).
    destruct (0.8 <? q); simpl; lia.
Qed.

(** X1: the severity never decreases when the confidence grows: of two
    verdicts of the scorer, the one with the larger confidence has the same
    or a higher severity. *)
Theorem severity_monotone
    (text1 text2 : str) (m1 m2 vz1 vz2 : Artifact) (v1 v2 : Verdict) :
  analyze_text text1 m1 vz1 = Ok v1 ->
  analyze_text text2 m2 vz2 = Ok v2 ->
  (confidence v1 <=? confidence v2) = true ->
  Spec.Severity_rank (severity v1) <= Spec.Severity_rank (severity v2).
Proof.
  intros H1 H2 Hle.
  destruct (ScorerProps.analyze_text_inv _ _ _ _ H1)
    as (X1 & P1 & r1 & p1 & l1 & d1 & _ & _ & _ & _ & _ & _ & ->).
  destruct (ScorerProps.analyze_text_inv _ _ _ _ H2)
    as (X2 & P2 & r2 & p2 & l2 & d2 & _ & _ & _ & _ & _ & _ & ->).
  now apply severity_of_monotone.
Qed.

Lemma severity_monotone_witness :
  Spec.Severity_rank MEDIUM <= Spec.Severity_rank HIGH.
Proof.
  apply (severity_monotone (of_string "hi") (of_string "hi")
           (Sample.classifier 0.75 1) (Sample.classifier 0.9 1)
           Sample.vectorizer Sample.vectorizer
           {| is_toxic := true; confidence := 0.75; severity := MEDIUM |}
           {| is_toxic := true; confidence := 0.9; severity := HIGH |});
    reflexivity.
Defined.

(** X2: with a classifier that predicts the toxic label exactly when the
    toxic-class probability is above one half, the two readings of the model
    agree: the verdict is toxic exactly when its severity is not LOW, and the
    safe box is shown exactly for severity LOW. *)
Theorem label_agrees_with_severity
    (text : str) (model vectorizer : Artifact) (v : Verdict) :
  Spec.decides_at_half model ->
  analyze_text text model vectorizer = Ok v ->
  (is_toxic v = true <-> severity v <> LOW) /\
  (main_box v = SafeBox <-> severity v = LOW).
Proof.
  intros Hhalf H.
  destruct (ScorerProps.analyze_text_inv _ _ _ _ H)
    as (X & P & row & p & labels & pred & _ & HP & Hrow & Hp & HL & Hpred & ->).
  pose proof (Hhalf X P labels row p pred HP HL Hrow Hp Hpred) as Hiff.
  pose proof (ScorerProps.severity_of_not_above_half p) as Hlow.
  unfold main_box. cbn [is_toxic severity].
  destruct (bool_of_label pred), (0.5 <? p), (severity_of p);
    cbn; intuition congruence.
Qed.

Lemma label_agrees_with_severity_witness :
  main_box {| is_toxic := true; confidence := 0.9; severity := HIGH |}
  <> SafeBox.
Proof.
  intros Hbox.
  assert (Hhalf : Spec.decides_at_half (Sample.classifier 0.9 1)).
  { intros X P labels row p pred [= <-] [= <-] Hrow Hp Hpred.
    destruct X as [|x X]; [discriminate|].
    injection Hrow as <-. injection Hp as <-. injection Hpred as <-.
    split; reflexivity. }
  pose proof (label_agrees_with_severity (of_string "hi")
                (Sample.classifier 0.9 1) Sample.vectorizer _
                Hhalf eq_refl) as [_ Hsafe].
  apply Hsafe in Hbox. discriminate.
Defined.

(** X3: the scorer raises only what the artifacts raise, or IndexError when
    their answer lacks an entry it reads: [analyze_text] raises [e] exactly
    when the transform, [predict_proba] or [predict] raises [e], or [e] is
    IndexError and the probabilities have no entry [0][1] or the labels no
    entry [0]. *)
Theorem scorer_exceptions
    (text : str) (model vectorizer : Artifact) (e : exn) :
  analyze_text text model vectorizer = Raise e <->
  Spec.underlying_failure text model vectorizer e \/
  (e = Exception "IndexError" /\ Spec.malformed_output text model vectorizer).
Proof.
  split.
  - unfold analyze_text, getitem, bind.
    destruct (transform vectorizer [text]) as [X|e0] eqn:HX;
      [|intros [= <-]; left; now left].
    destruct (predict_proba model X) as [P|e0] eqn:HP;
      [|intros [= <-]; left; right; exists X; split; [exact HX | now left]].
    destruct (nth_error P 0) as [row|] eqn:Hrow;
      [|intros [= <-]; right; split; [reflexivity|];
        exists X, P; repeat split; trivial; now left].
    destruct (nth_error row 1) as [p|] eqn:Hp;
      [|intros [= <-]; right; split; [reflexivity|];
        exists X, P; repeat split; trivial; right; left; now exists row].
    destruct (predict model X) as [labels|e0] eqn:HL;
      [|intros [= <-]; left; right; exists X; split; [exact HX|];
        right; now exists P, row, p].
    destruct labels as [|pred labels]; [|discriminate].
    intros [= <-]. right. split; [reflexivity|].
    exists X, P. repeat split; trivial. right. right. now exists row, p.
  - intros [Hfail | (-> & X & P & HX & HP & Hbad)].
    + now apply PageProps.underlying_failure_raises.
    + unfold analyze_text, getitem, bind. rewrite HX, HP.
      destruct Hbad as [-> | [(row & -> & ->) | (row & p & -> & -> & ->)]];
        reflexivity.
Qed.

Lemma scorer_exceptions_witness :
  analyze_text (of_string "hi") Sample.one_class_classifier Sample.vectorizer
  = Raise (Exception "IndexError").
Proof.
  apply (proj2 (scorer_exceptions (of_string "hi") Sample.one_class_classifier
                  Sample.vectorizer (Exception "IndexError"))).
  right. split; [reflexivity|].
  eexists. eexists. split; [reflexivity|]. split; [reflexivity|].
  right. left. eexists. split; reflexivity.
Defined.

End ScorerExtra.

(** * More on the text statistics and the guard *)

Module StatsExtra.
Import Py App.

Lemma word_count_token_count (text : str) :
  word_count text = Spec.token_count text.
Proof.
  unfold word_count, split, Spec.token_count.
  rewrite StatsProps.split_from_length. simpl. lia.
Qed.

Lemma word_count_zero_guard (text : str) :
  word_count text = 0 <-> truthy (strip text) = false.
Proof.
  rewrite word_count_token_count, PageProps.truthy_strip.
  unfold Spec.token_count, Spec.blank.
  induction text as [|c s IH]; simpl; [tauto|].
  destruct (isspace c); simpl; [exact IH|].
  split; [lia | discriminate].
Qed.

(** X4: the word count is zero exactly for the texts the analysis guard
    rejects, the empty and the all-whitespace ones; so a text that passes the
    guard has at least one word. *)
Theorem word_count_zero_iff_blank (text : str) :
  (word_count text = 0 <-> truthy (strip text) = false) /\
  (truthy (strip text) = true -> 1 <= word_count text).
Proof.
  split; [apply word_count_zero_guard|].
  intros Hguard. destruct (word_count text) eqn:Hw; [|lia].
  apply word_count_zero_guard in Hw. congruence.
Qed.

Lemma word_count_zero_iff_blank_witness :
  1 <= word_count (of_string " hi ").
Proof.
  exact (proj2 (word_count_zero_iff_blank (of_string " hi ")) eq_refl).
Defined.

Lemma token_starts_bound (s : str) :
  2 * Spec.token_starts true s <= List.length s + 1 /\
  2 * Spec.token_starts false s <= List.length s.
Proof.
  induction s as [|c s [IHt IHf]]; simpl; [lia|].
  destruct (isspace c); lia.
Qed.

(** X5: words are separated by at least one character, so a text of [n]
    words has at least [2n - 1] characters; in particular the word count
    never exceeds the character count. *)
Theorem word_count_bound (text : str) :
  2 * word_count text <= char_count text + 1 /\
  word_count text <= char_count text.
Proof.
  rewrite word_count_token_count. unfold Spec.token_count, char_count.
  pose proof (token_starts_bound text) as [H _].
  split; [exact H|].
  destruct text as [|c s]; [simpl; lia|]. simpl in *. lia.
Qed.

Lemma token_starts_app (a b : str) (c : char) (after_space : bool) :
  isspace c = true ->
  Spec.token_starts after_space (a ++ c :: b) =
  Spec.token_starts after_space a + Spec.token_starts true b.
Proof.
  intros Hc. revert after_space.
  induction a as [|x a IH]; intros after_space; simpl.
  - now rewrite Hc.
  - destruct (isspace x); rewrite IH; lia.
Qed.

(** X6: the words of two texts joined by a whitespace character are the
    words of the one and the words of the other. *)
Theorem word_count_joined (a b : str) (c : char) :
  isspace c = true ->
  word_count (a ++ c :: b) = word_count a + word_count b.
Proof.
  intros Hc. rewrite !word_count_token_count.
  now apply token_starts_app.
Qed.

Lemma word_count_joined_witness :
  word_count (of_string "Bodoh punya" ++ 32%N :: of_string "orang") = 3.
Proof.
  exact (eq_trans
           (word_count_joined (of_string "Bodoh punya") (of_string "orang")
              32%N eq_refl)
           eq_refl).
Defined.

Lemma split_from_lstrip (s : str) : split_from [] (lstrip s) = split_from [] s.
Proof.
  induction s as [|c s IH]; simpl; [reflexivity|].
  destruct (isspace c) eqn:Hc; [exact IH|]. simpl. now rewrite Hc.
Qed.

Lemma split_from_blank_tail (s ws tok : str) :
  Spec.blank ws = true -> split_from tok (s ++ ws) = split_from tok s.
Proof.
  intros Hws. revert tok. induction s as [|c s IH]; intros tok; simpl.
  - revert tok. induction ws as [|x ws IHws]; intros tok; [reflexivity|].
    simpl in Hws. apply andb_prop in Hws as [Hx Hws]. simpl. rewrite Hx.
    destruct tok; rewrite (IHws Hws); reflexivity.
  - destruct (isspace c); [destruct tok|]; now rewrite IH.
Qed.

Lemma lstrip_decompose (s : str) :
  exists ws, Spec.blank ws = true /\ s = ws ++ lstrip s.
Proof.
  induction s as [|c s (ws & Hws & IH)]; [now exists []|]. simpl.
  destruct (isspace c) eqn:Hc.
  - exists (c :: ws). simpl. rewrite Hc, Hws. split; [reflexivity|].
    now rewrite <- IH.
  - now exists [].
Qed.

Lemma rstrip_decompose (s : str) :
  exists ws, Spec.blank ws = true /\ s = rstrip s ++ ws.
Proof.
  destruct (lstrip_decompose (rev s)) as (ws & Hws & Hs).
  exists (rev ws). split; [now rewrite PageProps.blank_rev|].
  unfold rstrip. rewrite <- rev_app_distr, <- Hs. now rewrite rev_involutive.
Qed.

(** X7: whitespace around the text counts as characters and not as words:
    the text and its stripped form split into the same words, and stripping
    removes characters only. *)
Theorem split_strip (text : str) :
  split (strip text) = split text /\
  word_count (strip text) = word_count text /\
  char_count (strip text) <= char_count text.
Proof.
  assert (Hsplit : split (strip text) = split text).
  { unfold split, strip.
    destruct (rstrip_decompose (lstrip text)) as (ws & Hws & Hs).
    rewrite <- (split_from_lstrip text). rewrite Hs at 2.
    now rewrite split_from_blank_tail. }
  split; [exact Hsplit|]. split; [unfold word_count; now rewrite Hsplit|].
  unfold char_count, strip.
  destruct (rstrip_decompose (lstrip text)) as (ws & _ & Hs).
  destruct (lstrip_decompose text) as (ws' & _ & Hs').
  rewrite Hs' at 2. rewrite Hs at 2. rewrite !length_app. lia.
Qed.

End StatsExtra.

(** * More on the language detector *)

Module DetectorExtra.
Import Py App.

Lemma upper_ascii (ucd : Unicode) (s : str) :
  Spec.is_ascii s = true ->
  upper ucd s = map (fun c => if in_range 97 122 c then (c - 32)%N else c) s.
Proof.
  unfold Spec.is_ascii, upper. induction s as [|c s IH]; simpl; [reflexivity|].
  intros H. apply andb_prop in H as [Hc Hs]. rewrite (IH Hs).
  unfold upper_char. rewrite Hc. now destruct (in_range 97 122 c).
Qed.

Lemma upper_case_not_lower (c : char) :
  Spec.is_ascii_lower (if in_range 97 122 c then (c - 32)%N else c) = false.
Proof.
  unfold Spec.is_ascii_lower. destruct (in_range 97 122 c) eqn:Hc; [|exact Hc].
  unfold in_range in *. apply andb_prop in Hc as [H1 H2].
  apply N.leb_le in H1, H2. apply andb_false_iff. left.
  apply N.leb_gt. lia.
Qed.

(** X8: for a language code made of ASCII characters, as the library's
    codes are, the detector's answer does not depend on the Unicode tables,
    has as many characters as the code and holds no lower-case letter. *)
Theorem detect_language_ascii
    (ucd : Unicode) (detect_langs : str -> result (list Language))
    (text : str) (l : Language) (rest : list Language) :
  detect_langs text = Ok (l :: rest) ->
  Spec.is_ascii (lang l) = true ->
  exists code,
    detect_language ucd detect_langs text = Ok code /\
    detect_language caseless detect_langs text = Ok code /\
    List.length code = List.length (lang l) /\
    existsb Spec.is_ascii_lower code = false.
Proof.
  intros Hl Hascii. rewrite !DetectorProps.detect_language_cases, Hl.
  rewrite !(upper_ascii _ _ Hascii). eexists.
  split; [reflexivity|]. split; [reflexivity|].
  split; [apply length_map|].
  induction (lang l) as [|c s IH]; [reflexivity|].
  simpl in Hascii |- *. apply andb_prop in Hascii as [_ Hs].
  now rewrite upper_case_not_lower, (IH Hs).
Qed.

Lemma detect_language_ascii_witness :
  exists code,
    detect_language caseless Sample.detector (of_string "hello") = Ok code /\
    List.length code = 2 /\
    existsb Spec.is_ascii_lower code = false.
Proof.
  destruct (detect_language_ascii caseless Sample.detector (of_string "hello")
              _ _ eq_refl eq_refl) as (code & H & _ & Hlen & Hlow).
  exists code. repeat split; assumption.
Defined.

End DetectorExtra.

(** * More on the page script *)

Module PageExtra.
Import Py App ScriptFacts.
Local Open Scope string_scope.
Local Open Scope list_scope.

(** ** The script against its table of cases *)

Lemma load_model_error (env : Env) (e : exn) (w : World) :
  Spec.first_load_error env e ->
  load_model env w = Spec.load_failure_outcome env e w.
Proof.
  intros Hfirst.
  assert (Hbody :
    (show (SidebarWrite (BaseDirIs (BASE_DIR env))) ;;
     show (SidebarWrite (ModelPathExists (path_exists env (model_path env)))) ;;
     show (SidebarWrite (LookingForModelAt (model_path env))) ;;
     model <- lift (joblib_load env (model_path env)) ;;
     vectorizer <- lift (joblib_load env (vectorizer_path env)) ;;
     ret (model, vectorizer))%script w =
    {| res := Raise e; world := w; events := Spec.load_writes env |}).
  { destruct Hfirst as [Hm | (m & Hm & Hv)]; rewrite Hm; [|rewrite Hv];
      srun; reflexivity. }
  unfold load_model, Spec.load_failure_outcome.
  destruct (is_Exception e) eqn:He.
  - rewrite (try_caught _ _ _ _ _ _ Hbody He).
    destruct (path_exists env (BASE_DIR env));
      [destruct (iterdir env (BASE_DIR env)) as [l|e']|];
      cbn [bind]; srun; reflexivity.
  - now rewrite (try_passed _ _ _ _ _ _ Hbody He), Hbody.
Qed.

Lemma startup_error (env : Env) (e : exn) (w : World) :
  cache w = None ->
  Spec.first_load_error env e ->
  startup env w = Spec.startup_failure_outcome env e w.
Proof.
  intros Hc Hfirst.
  pose proof (load_model_error env e w Hfirst) as Hload.
  assert (Hshape : forall o : Out (Artifact * Artifact),
            o = Spec.load_failure_outcome env e w ->
            exists e1 evs,
              o = {| res := Raise e1; world := w; events := evs |}).
  { intros o ->. unfold Spec.load_failure_outcome.
    destruct (is_Exception e);
      [destruct (path_exists env (BASE_DIR env));
       [destruct (iterdir env (BASE_DIR env))|]|];
      eexists; eexists; reflexivity. }
  destruct (Hshape _ Hload) as (e1 & evs & Hrec).
  unfold Spec.startup_failure_outcome. rewrite <- Hload, Hrec.
  cbn [res world events]. unfold startup.
  assert (Hbody :
    (a <- cache_resource (load_model env) ;; show StSuccess ;; ret a)%script w
    = {| res := Raise e1; world := w; events := evs |}).
  { now rewrite (sbind_raise _ _ _ _ _ _
                   (PageProps.cache_resource_miss_raise _ _ _ _ _ Hc Hrec)). }
  unfold Spec.stop_on_error. destruct (is_Exception e1) eqn:He1.
  - rewrite (try_caught _ _ _ _ _ _ Hbody He1). srun. reflexivity.
  - now rewrite (try_passed _ _ _ _ _ _ Hbody He1), Hbody.
Qed.

Lemma sidebar_exact (inp : Inputs) (vz : Artifact) (w : World) (n : nat) :
  vocabulary_len vz = Ok n ->
  sidebar inp vz w =
  {| res := Ok tt;
     world := Spec.after_sidebar inp w;
     events := Spec.sidebar_events n |}.
Proof.
  intros Hn. destruct w as [c ex].
  unfold sidebar, when, Spec.after_sidebar, Spec.chosen_example. rewrite Hn.
  destruct (example1_btn inp), (example2_btn inp), (example3_btn inp);
    srun; reflexivity.
Qed.

Lemma page_run (env : Env) (inp : Inputs) (m vz : Artifact) (w : World)
    (lang : str) :
  detect_language (ucd env) (detect_langs env) (text_input inp) = Ok lang ->
  page env inp m vz w = Spec.page_outcome (ucd env) inp m vz lang w.
Proof.
  intros Hlang. unfold page, Spec.page_outcome.
  destruct (vocabulary_len vz) as [n|e] eqn:Hn.
  2:{ now rewrite (sbind_raise _ _ _ _ _ _
                     (PageProps.sidebar_raise inp vz w e Hn)). }
  rewrite (sbind_ok _ _ _ _ _ _ (sidebar_exact inp vz w n Hn)).
  rewrite show_bind, prepend_prepend. f_equal.
  set (w1 := Spec.after_sidebar inp w).
  unfold Spec.action_outcome.
  destruct (clear_btn inp) eqn:Hclear.
  - erewrite sbind_raise;
      [reflexivity | now rewrite PageProps.clear_action_cases, Hclear].
  - erewrite sbind_ok;
      [|now rewrite PageProps.clear_action_cases, Hclear].
    rewrite prepend_nil. unfold Spec.then_footer, sbind at 1. f_equal.
    unfold analyze_action. rewrite PageProps.truthy_strip.
    destruct (analyze_btn inp); cbn [andb]; [|reflexivity].
    destruct (Spec.blank (text_input inp)); cbn [negb]; [reflexivity|].
    destruct (PageProps.analysis_run env (text_input inp) m vz w1)
      as (lang' & Hlang' & ->).
    congruence.
Qed.

Lemma startup_failure_skips_page
    (env : Env) (e : exn) (w : World) (k : Artifact * Artifact -> Script unit) :
  startup env w = Spec.startup_failure_outcome env e w ->
  sbind (startup env) k w = Spec.startup_failure_outcome env e w.
Proof.
  intros Hs. unfold sbind. rewrite Hs.
  unfold Spec.startup_failure_outcome, Spec.load_failure_outcome,
    Spec.stop_on_error.
  destruct (is_Exception e) eqn:He;
    [destruct (path_exists env (BASE_DIR env));
     [destruct (iterdir env (BASE_DIR env)) as [l|e']|]|];
    cbn [res world events]; rewrite ?He;
    try (destruct (is_Exception e')); reflexivity.
Qed.

(** Every run of the script is the case of the table that its state,
    environment and inputs select. *)
Lemma script_run (env : Env) (inp : Inputs) (w : World) :
  exists lang,
    detect_language (ucd env) (detect_langs env) (text_input inp) = Ok lang /\
    script env inp w = Spec.script_outcome env inp lang w.
Proof.
  destruct (DetectorProps.detect_language_total
              (ucd env) (detect_langs env) (text_input inp)) as [lang Hlang].
  exists lang. split; [exact Hlang|].
  unfold script, Spec.script_outcome, Spec.script_head.
  rewrite !show_bind, !prepend_prepend. cbn [app]. f_equal.
  destruct (cache w) as [[m vz]|] eqn:Hc.
  - rewrite (sbind_ok _ _ _ _ _ _ (PageProps.startup_hit env w _ Hc)).
    cbn [fst snd]. now rewrite (page_run env inp m vz w lang Hlang).
  - destruct (joblib_load env (model_path env)) as [m|e] eqn:Hm.
    + destruct (joblib_load env (vectorizer_path env)) as [vz|e] eqn:Hv.
      * rewrite (sbind_ok _ _ _ _ _ _
                   (PageProps.startup_loaded env w m vz Hc Hm Hv)).
        cbn [fst snd]. now rewrite (page_run env inp m vz _ lang Hlang).
      * assert (Hfirst : Spec.first_load_error env e)
          by (right; now exists m).
        apply startup_failure_skips_page. now apply startup_error.
    + assert (Hfirst : Spec.first_load_error env e) by now left.
      apply startup_failure_skips_page. now apply startup_error.
Qed.

(** ** Reading the table *)

Lemma then_footer_cases (o : Out unit) :
  Spec.then_footer o =
  match res o with
  | Ok _ => {| res := Ok tt; world := world o;
               events := events o ++ [Shown Rule; Shown Footer] |}
  | Raise e => {| res := Raise e; world := world o; events := events o |}
  end.
Proof.
  unfold Spec.then_footer, andThen. destruct (res o); [|reflexivity].
  srun. reflexivity.
Qed.

Lemma world_analysis_outcome ucd text lang r w :
  world (Spec.analysis_outcome ucd text lang r w) = w.
Proof.
  unfold Spec.analysis_outcome. destruct r as [v|e]; [|reflexivity].
  cbv zeta.
  now destruct ((0 <=? confidence v)%float && (confidence v <=? 1)%float).
Qed.

Lemma world_action_outcome ucd inp m vz lang w :
  world (Spec.action_outcome ucd inp m vz lang w) =
  if clear_btn inp then {| cache := cache w; example := Some [] |} else w.
Proof.
  unfold Spec.action_outcome. destruct (clear_btn inp); [reflexivity|].
  rewrite then_footer_cases.
  destruct (analyze_btn inp); cbn [andb];
    [destruct (Spec.blank (text_input inp)); cbn [negb]|]; try reflexivity.
  destruct (res (Spec.analysis_outcome _ _ _ _ _));
    apply world_analysis_outcome.
Qed.

Lemma world_page_outcome ucd inp m vz lang w :
  world (Spec.page_outcome ucd inp m vz lang w) =
  match vocabulary_len vz with
  | Ok _ =>
      {| cache := cache w;
         example := if clear_btn inp then Some []
                    else Spec.chosen_example inp (example w) |}
  | Raise _ => w
  end.
Proof.
  unfold Spec.page_outcome. destruct (vocabulary_len vz); [|reflexivity].
  cbn [prepend world]. rewrite world_action_outcome.
  now destruct (clear_btn inp).
Qed.

Lemma startup_failure_world {A} env e w :
  world (@Spec.startup_failure_outcome A env e w) = w.
Proof.
  unfold Spec.startup_failure_outcome, Spec.load_failure_outcome,
    Spec.stop_on_error.
  destruct (is_Exception e) eqn:He;
    [destruct (path_exists env (BASE_DIR env));
     [destruct (iterdir env (BASE_DIR env)) as [l|e']|]|];
    cbn [res world events]; rewrite ?He;
    try (destruct (is_Exception e')); reflexivity.
Qed.

Lemma world_of_run (env : Env) (inp : Inputs) (w : World) :
  world (script env inp w) =
  {| cache := Spec.artifacts env w;
     example := Spec.next_example env inp w |}.
Proof.
  destruct (script_run env inp w) as (lang & _ & ->).
  unfold Spec.script_outcome, Spec.next_example, Spec.artifacts.
  cbn [prepend world]. destruct w as [c ex]. cbn [cache example].
  destruct c as [[m vz]|].
  - cbn [prepend world]. rewrite world_page_outcome. cbn [cache example].
    now destruct (vocabulary_len vz).
  - destruct (joblib_load env (model_path env)) as [m|e];
      [destruct (joblib_load env (vectorizer_path env)) as [vz|e]|];
      try apply startup_failure_world.
    cbn [prepend world]. rewrite world_page_outcome. cbn [cache example].
    destruct (vocabulary_len vz); reflexivity.
Qed.

(** X9: the state a run leaves.  The cache holds the artifacts the run
    worked with: the ones cached before, else the ones it loaded, whatever
    happened later in the run, and nothing if a load failed.  The example text
    is the empty text after a clear, else that of the last example button
    pressed, else as before; a run that ends before or in the sidebar leaves
    it as it was. *)
Theorem state_after_run (env : Env) (inp : Inputs) (w : World) :
  world (script env inp w) =
  {| cache := Spec.artifacts env w;
     example := Spec.next_example env inp w |}.
Proof. exact (world_of_run env inp w). Qed.

(** ** What a run does with the request *)

Lemma notable_analysis_outcome ucd text lang r w :
  filter Spec.notable
    (events (Spec.then_footer (Spec.analysis_outcome ucd text lang r w))) =
  Called (DetectLanguage text) :: Called (AnalyzeText text)
  :: match r with
     | Ok v => [Shown (ResultBox (main_box v))]
     | Raise _ => []
     end.
Proof.
  rewrite then_footer_cases. unfold Spec.analysis_outcome.
  destruct r as [v|e]; [|reflexivity]. cbv zeta.
  now destruct ((0 <=? confidence v)%float && (confidence v <=? 1)%float).
Qed.

Lemma notable_page_outcome ucd inp m vz lang w :
  filter Spec.notable (events (Spec.page_outcome ucd inp m vz lang w)) =
  match vocabulary_len vz with
  | Ok _ =>
      if clear_btn inp then []
      else if analyze_btn inp then
        if Spec.blank (text_input inp) then [Shown StWarning]
        else Called (DetectLanguage (text_input inp))
             :: Called (AnalyzeText (text_input inp))
             :: match analyze_text (text_input inp) m vz with
                | Ok v => [Shown (ResultBox (main_box v))]
                | Raise _ => []
                end
      else []
  | Raise _ => []
  end.
Proof.
  unfold Spec.page_outcome. destruct (vocabulary_len vz) as [n|e]; [|reflexivity].
  cbn [prepend events]. rewrite !filter_app.
  change (filter Spec.notable (Spec.sidebar_events n)) with (@nil Event).
  change (filter Spec.notable [Shown (Header "Enter Text to Analyze")])
    with (@nil Event).
  cbn [app]. unfold Spec.action_outcome.
  destruct (clear_btn inp); [reflexivity|].
  destruct (analyze_btn inp); cbn [andb]; [|reflexivity].
  destruct (Spec.blank (text_input inp)); cbn [negb]; [reflexivity|].
  apply notable_analysis_outcome.
Qed.

Lemma notable_startup_failure {A} env e w :
  filter Spec.notable (events (@Spec.startup_failure_outcome A env e w)) = [].
Proof.
  unfold Spec.startup_failure_outcome, Spec.load_failure_outcome,
    Spec.stop_on_error.
  destruct (is_Exception e) eqn:He;
    [destruct (path_exists env (BASE_DIR env));
     [destruct (iterdir env (BASE_DIR env)) as [l|e']|]|];
    cbn [res world events]; rewrite ?He;
    try (destruct (is_Exception e')); reflexivity.
Qed.

Lemma notable_events (env : Env) (inp : Inputs) (w : World) :
  filter Spec.notable (events (script env inp w)) =
  Spec.notable_of_run env inp w.
Proof.
  destruct (script_run env inp w) as (lang & _ & ->).
  unfold Spec.script_outcome, Spec.notable_of_run, Spec.artifacts.
  cbn [prepend events]. rewrite filter_app.
  change (filter Spec.notable Spec.script_head) with (@nil Event). cbn [app].
  destruct (cache w) as [[m vz]|].
  - cbn [prepend events]. rewrite filter_app. cbn [filter app].
    change (Spec.notable (Shown StSuccess)) with false. cbv iota.
    apply notable_page_outcome.
  - destruct (joblib_load env (model_path env)) as [m|e];
      [destruct (joblib_load env (vectorizer_path env)) as [vz|e]|];
      try apply notable_startup_failure.
    cbn [prepend events]. rewrite filter_app.
    change (filter Spec.notable (Spec.load_writes env ++ [Shown StSuccess]))
      with (@nil Event).
    apply notable_page_outcome.
Qed.

Lemma filter_through_notable (f : Event -> bool) (evs : list Event) :
  (forall ev, f ev = true -> Spec.notable ev = true) ->
  filter f evs = filter f (filter Spec.notable evs).
Proof.
  intros Hf. induction evs as [|ev evs IH]; [reflexivity|]. simpl.
  destruct (Spec.notable ev) eqn:Hn; simpl; rewrite <- IH; [reflexivity|].
  destruct (f ev) eqn:Hfev; [|reflexivity].
  apply Hf in Hfev. congruence.
Qed.

Lemma In_notable (ev : Event) (evs : list Event) :
  Spec.notable ev = true ->
  (In ev evs <-> In ev (filter Spec.notable evs)).
Proof. intros Hn. rewrite filter_In. tauto. Qed.

(** X10: the calls of a run.  A run calls the detector and the scorer once
    each, in this order and on the text of the input area, when it has
    artifacts, reads the vocabulary, is not cleared and has the analyze button
    pressed on a text that is not blank; otherwise it calls neither. *)
Theorem calls_of_run (env : Env) (inp : Inputs) (w : World) :
  filter Spec.is_call (events (script env inp w)) =
  match Spec.scored_with env inp w with
  | Some _ => [Called (DetectLanguage (text_input inp));
               Called (AnalyzeText (text_input inp))]
  | None => []
  end.
Proof.
  rewrite (filter_through_notable Spec.is_call)
    by (intros [c|el] H; [reflexivity | discriminate]).
  rewrite notable_events.
  unfold Spec.notable_of_run, Spec.scored_with.
  destruct (Spec.artifacts env w) as [[m vz]|]; [|reflexivity].
  destruct (vocabulary_len vz); [|reflexivity].
  destruct (clear_btn inp), (analyze_btn inp),
    (Spec.blank (text_input inp)); try reflexivity.
  cbn. now destruct (analyze_text (text_input inp) m vz).
Qed.

(** X11: a result box is on the page only as the box of a verdict: the box
    [b] is shown exactly when the run reaches the scorer with its artifacts
    and the scorer returns, for the text of the input area, a verdict whose
    box is [b]. *)
Theorem result_shown_iff
    (env : Env) (inp : Inputs) (w : World) (b : Box) :
  In (Shown (ResultBox b)) (events (script env inp w)) <->
  exists m vz v,
    Spec.scored_with env inp w = Some (m, vz) /\
    analyze_text (text_input inp) m vz = Ok v /\
    b = main_box v.
Proof.
  rewrite (In_notable (Shown (ResultBox b))) by reflexivity.
  rewrite notable_events.
  unfold Spec.notable_of_run, Spec.scored_with.
  destruct (Spec.artifacts env w) as [[m vz]|];
    [|split; [intros [] | intros (? & ? & ? & [=] & _)]].
  destruct (vocabulary_len vz);
    [|split; [intros [] | intros (? & ? & ? & [=] & _)]].
  destruct (clear_btn inp), (analyze_btn inp),
    (Spec.blank (text_input inp)); cbn;
    try solve [split;
               [intros H; repeat (destruct H as [H|H]; try discriminate H);
                contradiction
               | intros (? & ? & ? & H & _); discriminate H]].
  destruct (analyze_text (text_input inp) m vz) as [v|e] eqn:Hv; cbn.
  - split.
    + intros [H | [H | [H | []]]]; try discriminate H.
      injection H as <-. now exists m, vz, v.
    + intros (m' & vz' & v' & [= <- <-] & Hv' & ->).
      rewrite Hv in Hv'. injection Hv' as <-. tauto.
  - split.
    + intros [H | [H | []]]; discriminate H.
    + intros (m' & vz' & v' & [= <- <-] & Hv' & _). congruence.
Qed.

(** X12: the empty-input warning is shown exactly when the run has
    artifacts, reads the vocabulary, is not cleared, and the analyze button is
    pressed on a blank text. *)
Theorem warning_shown_iff (env : Env) (inp : Inputs) (w : World) :
  In (Shown StWarning) (events (script env inp w)) <->
  (exists m vz, Spec.reaches_action env inp w m vz) /\
  analyze_btn inp = true /\
  Spec.blank (text_input inp) = true.
Proof.
  rewrite (In_notable (Shown StWarning)) by reflexivity.
  rewrite notable_events.
  unfold Spec.notable_of_run, Spec.reaches_action.
  destruct (Spec.artifacts env w) as [[m vz]|];
    [|split; [intros [] | intros ((? & ? & [=] & _) & _)]].
  destruct (vocabulary_len vz) as [n|e] eqn:Hn;
    [|split; [intros []|];
      intros ((m' & vz' & [= <- <-] & [n Hn'] & _) & _); congruence].
  destruct (clear_btn inp);
    [split; [intros [] | intros ((? & ? & _ & _ & [=]) & _)]|].
  destruct (analyze_btn inp);
    [|split; [intros [] | intros (_ & [=] & _)]].
  destruct (Spec.blank (text_input inp)); cbn.
  - split; [|tauto]. intros _. split; [|tauto].
    exists m, vz. split; [reflexivity|]. split; [now exists n | reflexivity].
  - split; [|intros (_ & _ & [=])].
    destruct (analyze_text (text_input inp) m vz);
      intros [[=] | [[=] | H]]; [destruct H as [[=] | []] | destruct H].
Qed.

(** ** How a run ends *)

(** With artifacts, the run is its page, after events that are not
    notable. *)
Lemma script_with_artifacts
    (env : Env) (inp : Inputs) (w : World) (m vz : Artifact) (lang : str) :
  Spec.artifacts env w = Some (m, vz) ->
  exists evs w0,
    Spec.script_outcome env inp lang w =
    prepend evs (Spec.page_outcome (ucd env) inp m vz lang w0) /\
    filter Spec.notable evs = [] /\
    cache w0 = Some (m, vz) /\ example w0 = example w.
Proof.
  unfold Spec.artifacts, Spec.script_outcome. intros Ha.
  destruct (cache w) as [[m' vz']|] eqn:Hc.
  - injection Ha as <- <-. rewrite prepend_prepend.
    eexists. exists w. split; [reflexivity|]. now repeat split.
  - destruct (joblib_load env (model_path env)) as [m'|e]; [|discriminate].
    destruct (joblib_load env (vectorizer_path env)) as [vz'|e];
      [|discriminate].
    injection Ha as <- <-. rewrite prepend_prepend.
    eexists. eexists. split; [reflexivity|]. now repeat split.
Qed.

Lemma scored_with_inv (env : Env) (inp : Inputs) (w : World) (m vz : Artifact) :
  Spec.scored_with env inp w = Some (m, vz) ->
  Spec.artifacts env w = Some (m, vz) /\
  (exists n, vocabulary_len vz = Ok n) /\
  clear_btn inp = false /\
  analyze_btn inp = true /\
  Spec.blank (text_input inp) = false.
Proof.
  unfold Spec.scored_with.
  destruct (Spec.artifacts env w) as [[m' vz']|]; [|discriminate].
  destruct (vocabulary_len vz') as [n|e] eqn:Hn; [|discriminate].
  destruct (clear_btn inp), (analyze_btn inp),
    (Spec.blank (text_input inp)); try discriminate.
  intros [= <- <-]. repeat split. now exists n.
Qed.

(** X13: a cached vectorizer whose vocabulary cannot be read breaks the
    page for good: the run ends in the sidebar with that exception, whatever
    the buttons and the text, without analysis or warning; the artifacts are
    cached all the same, so every later run ends in the same way. *)
Theorem unreadable_vocabulary_stops_page
    (env : Env) (inp : Inputs) (w : World) (m vz : Artifact) (e : exn) :
  Spec.artifacts env w = Some (m, vz) ->
  vocabulary_len vz = Raise e ->
  let o := script env inp w in
  res o = Raise e /\
  filter Spec.notable (events o) = [] /\
  cache (world o) = Some (m, vz) /\
  forall env' inp', res (script env' inp' (world o)) = Raise e.
Proof.
  intros Ha He.
  assert (Hres : forall env0 inp0 w0,
            Spec.artifacts env0 w0 = Some (m, vz) ->
            res (script env0 inp0 w0) = Raise e).
  { intros env0 inp0 w0 Ha0.
    destruct (script_run env0 inp0 w0) as (lang & _ & ->).
    destruct (script_with_artifacts env0 inp0 w0 m vz lang Ha0)
      as (evs & w1 & -> & _).
    unfold Spec.page_outcome. now rewrite He. }
  cbv zeta. split; [now apply Hres|].
  split; [rewrite notable_events; unfold Spec.notable_of_run;
          now rewrite Ha, He|].
  rewrite world_of_run. cbn [cache]. split; [exact Ha|].
  intros env' inp'. apply Hres. now rewrite Ha.
Qed.

Lemma unreadable_vocabulary_stops_page_witness :
  let env := Sample.env_with Sample.files_bare in
  let o := script env (Sample.request "Hello World!") Sample.fresh in
  res o = Raise (Exception "AttributeError") /\
  res (script env (Sample.request "hi") (world o))
  = Raise (Exception "AttributeError").
Proof.
  cbv zeta.
  destruct (unreadable_vocabulary_stops_page
              (Sample.env_with Sample.files_bare)
              (Sample.request "Hello World!") Sample.fresh
              (Sample.classifier 0.9 1) Sample.bare_transformer
              (Exception "AttributeError") eq_refl eq_refl)
    as (Hres & _ & _ & Hlater).
  split; [exact Hres | apply Hlater].
Defined.

(** X14: the clear button wins over the analyze button: a run with
    artifacts and a readable vocabulary in which clear is pressed ends in a
    rerun, with the example text emptied and the cache kept, and without
    analysis or warning even if analyze is pressed too. *)
Theorem clear_reruns
    (env : Env) (inp : Inputs) (w : World) (m vz : Artifact) (n : nat) :
  Spec.artifacts env w = Some (m, vz) ->
  vocabulary_len vz = Ok n ->
  clear_btn inp = true ->
  let o := script env inp w in
  res o = Raise RerunException /\
  world o = {| cache := Some (m, vz); example := Some [] |} /\
  filter Spec.notable (events o) = [].
Proof.
  intros Ha Hn Hclear. cbv zeta. split; [|split].
  - destruct (script_run env inp w) as (lang & _ & ->).
    destruct (script_with_artifacts env inp w m vz lang Ha)
      as (evs & w1 & -> & _).
    unfold Spec.page_outcome, Spec.action_outcome. now rewrite Hn, Hclear.
  - rewrite world_of_run. unfold Spec.next_example.
    now rewrite Ha, Hn, Hclear.
  - rewrite notable_events. unfold Spec.notable_of_run.
    now rewrite Ha, Hn, Hclear.
Qed.

Lemma clear_reruns_witness :
  let inp := {| text_input := of_string "Hello World!"; analyze_btn := true;
                clear_btn := true; example1_btn := false;
                example2_btn := false; example3_btn := false |} in
  let o := script (Sample.env 0.9 1) inp Sample.fresh in
  res o = Raise RerunException /\
  example (world o) = Some [] /\
  filter Spec.notable (events o) = [].
Proof.
  cbv zeta.
  destruct (clear_reruns (Sample.env 0.9 1)
              {| text_input := of_string "Hello World!"; analyze_btn := true;
                 clear_btn := true; example1_btn := false;
                 example2_btn := false; example3_btn := false |}
              Sample.fresh (Sample.classifier 0.9 1) Sample.vectorizer 1
              eq_refl eq_refl eq_refl) as (Hres & Hworld & Hquiet).
  split; [exact Hres|]. split; [now rewrite Hworld | exact Hquiet].
Defined.

(** X15: a request that is scored with a confidence in [0, 1] is shown in
    full and the run completes: after events that are not notable come the
    two calls, the verdict (result box, language, score, severity), the
    progress bar, the four statistics of the text, whose word count is at
    least one, and the footer. *)
Theorem scored_request_completes
    (env : Env) (inp : Inputs) (w : World) (m vz : Artifact) (v : Verdict) :
  Spec.scored_with env inp w = Some (m, vz) ->
  analyze_text (text_input inp) m vz = Ok v ->
  (0 <=? confidence v)%float = true ->
  (confidence v <=? 1)%float = true ->
  let o := script env inp w in
  let text := text_input inp in
  res o = Ok tt /\
  1 <= word_count text /\
  exists evs lang,
    detect_language (ucd env) (detect_langs env) text = Ok lang /\
    filter Spec.notable evs = [] /\
    events o =
    evs ++ Called (DetectLanguage text) :: Called (AnalyzeText text)
        :: Spec.shown_verdict lang v
        ++ Shown (Progress (confidence v))
        :: Spec.shown_statistics (ucd env) text
        ++ [Shown Rule; Shown Footer].
Proof.
  intros Hscored Hv H0 H1. cbv zeta.
  destruct (scored_with_inv _ _ _ _ _ Hscored)
    as (Ha & [n Hn] & Hclear & Hb & Hblank).
  destruct (script_run env inp w) as (lang & Hlang & ->).
  destruct (script_with_artifacts env inp w m vz lang Ha)
    as (evs & w1 & -> & Hevs & _).
  unfold Spec.page_outcome, Spec.action_outcome.
  rewrite Hn, Hclear, Hb, Hblank. cbn [andb negb].
  rewrite then_footer_cases. unfold Spec.analysis_outcome.
  rewrite Hv. cbv zeta. rewrite H0, H1. cbn [andb res world events prepend].
  split; [reflexivity|]. split.
  - destruct (word_count (text_input inp)) eqn:Hw; [|lia].
    apply StatsExtra.word_count_zero_guard in Hw.
    rewrite PageProps.truthy_strip, Hblank in Hw. discriminate.
  - exists (evs ++ Spec.sidebar_events n
                ++ [Shown (Header "Enter Text to Analyze")]), lang.
    split; [exact Hlang|]. split.
    + rewrite filter_app, Hevs. reflexivity.
    + rewrite <- !app_assoc. reflexivity.
Qed.

Lemma scored_request_completes_witness :
  let o := script (Sample.env 0.9 1) (Sample.request "Hello World!")
             Sample.fresh in
  res o = Ok tt /\
  In (Shown (StatBox "Words" (SCount 2))) (events o).
Proof.
  cbv zeta.
  destruct (scored_request_completes (Sample.env 0.9 1)
              (Sample.request "Hello World!") Sample.fresh
              (Sample.classifier 0.9 1) Sample.vectorizer _
              eq_refl eq_refl eq_refl eq_refl)
    as (Hres & _ & evs & lang & _ & _ & Hev).
  split; [exact Hres|]. rewrite Hev.
  apply in_or_app. right. do 2 right.
  apply in_or_app. right. right.
  apply in_or_app. left. cbn. tauto.
Defined.

(** ** Loading once, and loading again *)

(** X16: the artifacts are loaded once.  A run that starts with cached
    artifacts does not consult the file system: it comes out the same in any
    two environments that have the same language detector and Unicode tables,
    whatever their files have become. *)
Theorem later_runs_ignore_files
    (env env' : Env) (inp : Inputs) (w : World) (a : Artifact * Artifact) :
  cache w = Some a ->
  detect_langs env' = detect_langs env ->
  ucd env' = ucd env ->
  script env' inp w = script env inp w.
Proof.
  intros Hc Hdl Hucd.
  destruct (script_run env inp w) as (lang & Hlang & ->).
  destruct (script_run env' inp w) as (lang' & Hlang' & ->).
  rewrite Hdl, Hucd, Hlang in Hlang'. injection Hlang' as <-.
  unfold Spec.script_outcome. rewrite Hc, Hucd. reflexivity.
Qed.

Lemma later_runs_ignore_files_witness :
  script (Sample.env_with Sample.files_no_vectorizer)
    (Sample.request "Hello World!") (Sample.loaded 0.9 1)
  = script (Sample.env 0.9 1) (Sample.request "Hello World!")
      (Sample.loaded 0.9 1).
Proof.
  exact (later_runs_ignore_files (Sample.env 0.9 1)
           (Sample.env_with Sample.files_no_vectorizer)
           (Sample.request "Hello World!") (Sample.loaded 0.9 1) _
           eq_refl eq_refl eq_refl).
Defined.

Lemma script_load_failure (env : Env) (inp : Inputs) (w : World) (e : exn) :
  cache w = None ->
  Spec.first_load_error env e ->
  script env inp w =
  prepend Spec.script_head (Spec.startup_failure_outcome env e w).
Proof.
  intros Hc Hfirst.
  destruct (script_run env inp w) as (lang & _ & ->).
  unfold Spec.script_outcome. rewrite Hc.
  destruct Hfirst as [-> | (m & -> & ->)]; reflexivity.
Qed.

(** X17: a failed load is not remembered: the run that fails leaves the
    state as it was, and the next run loads again, so that once both files
    load the artifacts are cached. *)
Theorem failed_load_is_retried
    (env env' : Env) (inp inp' : Inputs) (w : World) (e : exn)
    (a : Artifact * Artifact) :
  cache w = None ->
  Spec.first_load_error env e ->
  Spec.artifacts env' w = Some a ->
  let o := script env inp w in
  world o = w /\
  cache (world (script env' inp' (world o))) = Some a.
Proof.
  intros Hc Hfirst Ha. cbv zeta.
  assert (Hw : world (script env inp w) = w).
  { rewrite (script_load_failure env inp w e Hc Hfirst).
    apply (@startup_failure_world unit). }
  split; [exact Hw|]. rewrite Hw, world_of_run. exact Ha.
Qed.

Lemma failed_load_is_retried_witness :
  let o := script (Sample.env_with Sample.files_no_vectorizer)
             (Sample.request "hi") Sample.fresh in
  cache (world (script (Sample.env 0.9 1) (Sample.request "hi") (world o)))
  = Some (Sample.classifier 0.9 1, Sample.vectorizer).
Proof.
  cbv zeta.
  exact (proj2 (failed_load_is_retried
                  (Sample.env_with Sample.files_no_vectorizer)
                  (Sample.env 0.9 1) (Sample.request "hi") (Sample.request "hi")
                  Sample.fresh (Exception "FileNotFoundError") _
                  eq_refl
                  (or_intror (ex_intro _ (Sample.classifier 0.5 0)
                                (conj eq_refl eq_refl)))
                  eq_refl)).
Defined.

(** ** The three ways a load fails *)

(** X18: a load that fails with an [Exception] is reported and stops the
    page: when the directory listing for the last message can be made,
    [load_model] shows its four messages and raises the exception of the
    load, and the script shows the failure once more and stops. *)
Theorem load_error_reported
    (env : Env) (inp : Inputs) (w : World) (e : exn)
    (files : option (list string)) :
  cache w = None ->
  Spec.first_load_error env e ->
  is_Exception e = true ->
  Spec.listing env = Ok files ->
  load_model env w =
  {| res := Raise e; world := w;
     events := Spec.load_writes env ++ Spec.load_errors env e
               ++ [Shown (StError (FilesInBaseDir files))] |} /\
  script env inp w =
  {| res := Raise StopException; world := w;
     events := Spec.script_head ++ Spec.load_writes env
               ++ Spec.load_errors env e
               ++ [Shown (StError (FilesInBaseDir files));
                   Shown (StError (FailedToLoad e))] |}.
Proof.
  intros Hc Hfirst He Hlist.
  rewrite (load_model_error env e w Hfirst).
  rewrite (script_load_failure env inp w e Hc Hfirst).
  unfold Spec.startup_failure_outcome, Spec.load_failure_outcome,
    Spec.stop_on_error, Spec.listing in *.
  rewrite He.
  destruct (path_exists env (BASE_DIR env));
    [destruct (iterdir env (BASE_DIR env)) as [l|e']; [|discriminate]|];
    injection Hlist as <-; cbn [res world events]; rewrite He;
    cbn [prepend res world events]; rewrite <- ?app_assoc;
    split; reflexivity.
Qed.

Lemma load_error_reported_witness :
  res (script (Sample.env_with Sample.files_no_vectorizer)
         (Sample.request "hi") Sample.fresh)
  = Raise StopException.
Proof.
  destruct (load_error_reported
              (Sample.env_with Sample.files_no_vectorizer)
              (Sample.request "hi") Sample.fresh
              (Exception "FileNotFoundError") _
              eq_refl
              (or_intror (ex_intro _ (Sample.classifier 0.5 0)
                            (conj eq_refl eq_refl)))
              eq_refl eq_refl) as [_ ->].
  reflexivity.
Defined.

(** X19: an exception raised while [load_model] reports a failed load
    takes the place of the failure: when the base directory exists and listing
    it raises [e'], [load_model] raises [e'] and not the exception of the
    load, the listing message is not shown, and the script reports [e'] and
    stops (or ends in [e'] itself when it is no [Exception]). *)
Theorem listing_error_masks_load_error
    (env : Env) (inp : Inputs) (w : World) (e e' : exn) :
  cache w = None ->
  Spec.first_load_error env e ->
  is_Exception e = true ->
  Spec.listing env = Raise e' ->
  load_model env w =
  {| res := Raise e'; world := w;
     events := Spec.load_writes env ++ Spec.load_errors env e |} /\
  script env inp w =
  Spec.stop_on_error e' w
    (Spec.script_head ++ Spec.load_writes env ++ Spec.load_errors env e).
Proof.
  intros Hc Hfirst He Hlist.
  rewrite (load_model_error env e w Hfirst).
  rewrite (script_load_failure env inp w e Hc Hfirst).
  unfold Spec.startup_failure_outcome, Spec.load_failure_outcome,
    Spec.stop_on_error, Spec.listing in *.
  rewrite He.
  destruct (path_exists env (BASE_DIR env)); [|discriminate].
  destruct (iterdir env (BASE_DIR env)) as [l|e'']; [discriminate|].
  injection Hlist as <-. cbn [res world events].
  split; [reflexivity|].
  destruct (is_Exception e''); cbn [prepend res world events];
    rewrite <- ?app_assoc; reflexivity.
Qed.

Lemma listing_error_masks_load_error_witness :
  res (load_model (Sample.env_unlistable Sample.files_no_vectorizer)
         Sample.fresh)
  = Raise (Exception "PermissionError").
Proof.
  destruct (listing_error_masks_load_error
              (Sample.env_unlistable Sample.files_no_vectorizer)
              (Sample.request "hi") Sample.fresh
              (Exception "FileNotFoundError") (Exception "PermissionError")
              eq_refl
              (or_intror (ex_intro _ (Sample.classifier 0.5 0)
                            (conj eq_refl eq_refl)))
              eq_refl eq_refl) as [-> _].
  reflexivity.
Defined.

(** X20: a load that fails with something that is no [Exception] (an
    interrupt, an exit) goes through both handlers untouched: nothing is
    reported, the page is not stopped by [st.stop()], and the run ends in that
    very exception. *)
Theorem interrupt_not_reported
    (env : Env) (inp : Inputs) (w : World) (e : exn) :
  cache w = None ->
  Spec.first_load_error env e ->
  is_Exception e = false ->
  load_model env w =
  {| res := Raise e; world := w; events := Spec.load_writes env |} /\
  script env inp w =
  {| res := Raise e; world := w;
     events := Spec.script_head ++ Spec.load_writes env |}.
Proof.
  intros Hc Hfirst He.
  rewrite (load_model_error env e w Hfirst).
  rewrite (script_load_failure env inp w e Hc Hfirst).
  unfold Spec.startup_failure_outcome, Spec.load_failure_outcome,
    Spec.stop_on_error.
  rewrite He. cbn [res world events]. rewrite He. split; reflexivity.
Qed.

Lemma interrupt_not_reported_witness :
  res (script (Sample.env_with Sample.files_interrupted)
         (Sample.request "hi") Sample.fresh)
  = Raise (BaseException "KeyboardInterrupt").
Proof.
  destruct (interrupt_not_reported
              (Sample.env_with Sample.files_interrupted)
              (Sample.request "hi") Sample.fresh
              (BaseException "KeyboardInterrupt")
              eq_refl (or_introl eq_refl) eq_refl) as [_ ->].
  reflexivity.
Defined.

End PageExtra.
